(** * firebase-to-llm: the Firestore dump script, embedded and verified

    The development follows [firebase-to-llm.py]:
    - [json_serializer], the [default] hook handed to [json.dumps];
    - [dump_collection], the depth-bounded recursive walk;
    - the [__main__] block: start-up of the Admin SDK and the loop over the
      top-level collections.

    Python's effects are kept explicit.  A computation yields an outcome (a
    value, a raised exception, or exhaustion of the recursion budget of the
    model) together with the chronological trace of what it did to the outside
    world: lines printed on standard output, lines printed on the diagnostic
    stream, and reads issued to the remote store. *)

From Stdlib Require Import ZArith List String Ascii Bool Lia DecimalString.
Import ListNotations.

Local Open Scope string_scope.
Local Open Scope Z_scope.

(* ===================================================================== *)
(** * Exceptions, traces and the computation monad                        *)
(* ===================================================================== *)

(** A raised Python exception: the name of its class and [str(e)].  Only
    subclasses of [Exception] are modelled ([KeyboardInterrupt] and
    [SystemExit] are outside the model, except for the exit codes of
    [__main__]). *)
Record Exn := mkExn { exn_class : string; exn_msg : string }.

(** [except TypeError] *)
Definition is_TypeError (e : Exn) : bool := String.eqb (exn_class e) "TypeError".

Definition ColRef := list string.   (* path of a collection, segment by segment *)
Definition DocRef := list string.   (* path of a document *)

(** [col_ref.id] and [doc_ref.id]: the last segment of the path. *)
Definition ref_id (p : list string) : string := last p "".

(** Lines the traversal prints on standard output, one constructor per
    [print] call of [dump_collection]; [render_line] gives the text. *)
Inductive Line :=
| LMaxDepth (depth max_depth : Z) (col_id : string)
| LRuleTop (depth : Z)
| LProcessing (depth : Z) (col_id : string)
| LRule (depth : Z)
| LFetchingAll (depth : Z) (col_id : string)
| LFetchingUpTo (depth limit_count : Z) (col_id : string)
| LDocument (depth : Z) (doc_id : string)
| LJson (text : string)
| LCheckingSub (depth : Z) (doc_id : string)
| LEmpty (depth : Z) (col_id : string)
| LErrorWarning (col_id : string)
| LErrorDetails (depth : Z) (msg : string)
| LText (text : string).            (* the fixed messages of [__main__] *)

(** Reads issued to the remote store. *)
Inductive StoreRequest :=
| RStream (col : ColRef) (limit : option Z)   (* [query.stream()] *)
| RCollections (doc : DocRef)                 (* [doc_ref.collections()] *)
| RRootCollections.                           (* [db.collections()] *)

Inductive Event :=
| Stdout (l : Line)
| Stderr (text : string)
| Request (r : StoreRequest).

Definition Trace := list Event.

Inductive outcome (A : Type) :=
| Ret (a : A)          (* normal completion *)
| Raise (e : Exn)      (* an exception propagates *)
| Exhausted.             (* the model's recursion budget ran out *)
Arguments Ret {A} a.
Arguments Raise {A} e.
Arguments Exhausted {A}.

Definition M (A : Type) : Type := outcome A * Trace.

Definition ret {A} (a : A) : M A := (Ret a, []).
Definition raise {A} (e : Exn) : M A := (Raise e, []).
Definition exhausted {A} : M A := (Exhausted, []).
Definition emit (ev : Event) : M unit := (Ret tt, [ev]).

(** [print(...)] and [print(..., file=sys.stderr)].  Both streams are taken to
    accept every text (as they do when they are encoded in UTF-8), so that
    printing itself does not raise. *)
Definition print (l : Line) : M unit := emit (Stdout l).
Definition print_stderr (s : string) : M unit := emit (Stderr s).

Definition bind {A B} (m : M A) (f : A -> M B) : M B :=
  match m with
  | (Ret a, t) => let (r, t') := f a in (r, (t ++ t')%list)
  | (Raise e, t) => (Raise e, t)
  | (Exhausted, t) => (Exhausted, t)
  end.

(** [try: m  except Exception as e: h e] *)
Definition try_except {A} (m : M A) (h : Exn -> M A) : M A :=
  match m with
  | (Raise e, t) => let (r, t') := h e in (r, (t ++ t')%list)
  | other => other
  end.

(** What an operation of the interpreter, of a library or of the store
    answers: a value or an exception. *)
Inductive result (A : Type) :=
| Ok (a : A)
| Error (e : Exn).
Arguments Ok {A} a.
Arguments Error {A} e.

(** Such an answer, used inside a computation. *)
Definition lift {A} (r : result A) : M A :=
  match r with
  | Ok a => (Ret a, [])
  | Error e => (Raise e, [])
  end.

Declare Scope py_scope.
Delimit Scope py_scope with py.
Notation "x <- m ;; k" := (bind m (fun x => k))
  (at level 61, m at next level, right associativity) : py_scope.
Notation "m ;; k" := (bind m (fun _ => k))
  (at level 61, right associativity) : py_scope.
Local Open Scope py_scope.

(** [for x in xs: body x] *)
Fixpoint for_each {A} (xs : list A) (body : A -> M unit) : M unit :=
  match xs with
  | [] => ret tt
  | x :: rest => body x ;; for_each rest body
  end.

Definition stdout_of (t : Trace) : list Line :=
  flat_map (fun ev => match ev with Stdout l => [l] | _ => [] end) t.
Definition stderr_of (t : Trace) : list string :=
  flat_map (fun ev => match ev with Stderr s => [s] | _ => [] end) t.
Definition requests_of (t : Trace) : list StoreRequest :=
  flat_map (fun ev => match ev with Request r => [r] | _ => [] end) t.

(* ===================================================================== *)
(** * Text helpers                                                        *)
(* ===================================================================== *)

Definition chr (n : nat) : string := String (ascii_of_nat n) "".
Definition dquote : string := chr 34.
Definition newline : string := chr 10.

(** [str(n)] for an [int]. *)
Definition str_int (n : Z) : string := NilZero.string_of_int (Z.to_int n).

(** [s * n] for a string: the empty string when [n <= 0]. *)
Fixpoint repeat_string (s : string) (n : nat) : string :=
  match n with
  | O => ""
  | S k => s ++ repeat_string s k
  end.
Definition str_mul (s : string) (n : Z) : string := repeat_string s (Z.to_nat n).

(** ["%0<width>d" % n] for [0 <= n]. *)
Definition zero_pad (width : nat) (n : Z) : string :=
  let digits := str_int n in
  repeat_string "0" (width - String.length digits) ++ digits.

Fixpoint join (sep : string) (parts : list string) : string :=
  match parts with
  | [] => ""
  | [p] => p
  | p :: rest => p ++ sep ++ join sep rest
  end.

(* ===================================================================== *)
(** * [datetime]: the part of the standard library the serializer uses    *)
(* ===================================================================== *)

(** A [datetime.datetime]; [tzinfo] is the UTC offset in microseconds of an
    aware value, [None] for a naive one. *)
Record datetime := mkDatetime {
  year : Z; month : Z; day : Z;
  hour : Z; minute : Z; second : Z; microsecond : Z;
  tzinfo : option Z
}.

Definition _MAXORDINAL : Z := 3652059.       (* date(9999, 12, 31).toordinal() *)
Definition _DI400Y : Z := 146097.
Definition _DI100Y : Z := 36524.
Definition _DI4Y : Z := 1461.
Definition _EPOCH_ORDINAL : Z := 719163.     (* date(1970, 1, 1).toordinal() *)

Definition _DAYS_IN_MONTH (m : Z) : Z :=
  nth (Z.to_nat m) [-1; 31; 28; 31; 30; 31; 30; 31; 31; 30; 31; 30; 31] 0.
Definition _DAYS_BEFORE_MONTH (m : Z) : Z :=
  nth (Z.to_nat m) [-1; 0; 31; 59; 90; 120; 151; 181; 212; 243; 273; 304; 334] 0.

Definition b2z (b : bool) : Z := if b then 1 else 0.

(** [datetime._ord2ymd]: ordinal (1 = 0001-01-01) to (year, month, day). *)
Definition _ord2ymd (ordinal : Z) : Z * Z * Z :=
  let n := ordinal - 1 in
  let n400 := n / _DI400Y in
  let n := n mod _DI400Y in
  let year := n400 * 400 + 1 in
  let n100 := n / _DI100Y in
  let n := n mod _DI100Y in
  let n4 := n / _DI4Y in
  let n := n mod _DI4Y in
  let n1 := n / 365 in
  let n := n mod 365 in
  let year := year + n100 * 100 + n4 * 4 + n1 in
  if (n1 =? 4) || (n100 =? 4) then (year - 1, 12, 31)
  else
    let leapyear := (n1 =? 3) && (negb (n4 =? 24) || (n100 =? 3)) in
    let month := Z.shiftr (n + 50) 5 in
    let preceding := _DAYS_BEFORE_MONTH month + b2z ((month >? 2) && leapyear) in
    if preceding >? n then
      let month := month - 1 in
      let preceding :=
        preceding - (_DAYS_IN_MONTH month + b2z ((month =? 2) && leapyear)) in
      (year, month, n - preceding + 1)
    else (year, month, n - preceding + 1).

(** [well_known_types._RoundTowardZero] *)
Definition _RoundTowardZero (value divider : Z) : Z :=
  let result := value / divider in
  let remainder := value mod divider in
  if (result <? 0) && (remainder >? 0) then result + 1 else result.

Definition OverflowError (msg : string) : Exn := mkExn "OverflowError" msg.

Definition ValueError (msg : string) : Exn := mkExn "ValueError" msg.

Definition _TIMESTAMP_SECONDS_MIN : Z := -62135596800.   (* 0001-01-01T00:00:00 *)
Definition _TIMESTAMP_SECONDS_MAX : Z := 253402300799.   (* 9999-12-31T23:59:59 *)

(** [well_known_types._CheckTimestampValid]: a timestamp outside the years
    1 to 9999, or with nanoseconds outside a second, is refused. *)
Definition _CheckTimestampValid (seconds nanos : Z) : result unit :=
  if (seconds <? _TIMESTAMP_SECONDS_MIN) || (seconds >? _TIMESTAMP_SECONDS_MAX) then
    Error (ValueError ("Timestamp is not valid: Seconds " ++ str_int seconds
                         ++ " must be in range [-62135596800, 253402300799]."))
  else if (nanos <? 0) || (nanos >=? 1000000000) then
    Error (ValueError ("Timestamp is not valid: Nanos " ++ str_int nanos
                         ++ " must be in a range [0, 999999]."))
  else Ok tt.

(** [Timestamp.ToDatetime()] of protobuf with no [tzinfo] argument: the
    validity check, then [_EPOCH_DATETIME_NAIVE + timedelta(seconds=seconds,
    microseconds=_RoundTowardZero(nanos, 1000))].  The [timedelta] is
    normalised to days, seconds and microseconds, and both the constructor and
    the addition raise [OverflowError] out of range. *)
Definition ToDatetime (seconds nanos : Z) : result datetime :=
  match _CheckTimestampValid seconds nanos with
  | Error e => Error e
  | Ok _ =>
      let total_us := seconds * 1000000 + _RoundTowardZero nanos 1000 in
      let days := total_us / 86400000000 in
      let rem_us := total_us mod 86400000000 in
      if Z.abs days >? 999999999 then
        Error (OverflowError ("days=" ++ str_int days
                                ++ "; must have magnitude <= 999999999"))
      else
        let ordinal := _EPOCH_ORDINAL + days in
        if (0 <? ordinal) && (ordinal <=? _MAXORDINAL) then
          let '(y, m, d) := _ord2ymd ordinal in
          let secs := rem_us / 1000000 in
          Ok (mkDatetime y m d (secs / 3600) ((secs mod 3600) / 60) (secs mod 60)
                          (rem_us mod 1000000) None)
        else Error (OverflowError "date value out of range")
  end.

(** [dt.replace(tzinfo=tz)] *)
Definition replace_tzinfo (dt : datetime) (tz : option Z) : datetime :=
  mkDatetime (year dt) (month dt) (day dt) (hour dt) (minute dt) (second dt)
             (microsecond dt) tz.

(** [datetime.timezone.utc], as an offset. *)
Definition timezone_utc : option Z := Some 0.

Inductive timespec := ts_auto | ts_milliseconds.

(** [datetime._format_time] for the two [timespec] values in use. *)
Definition _format_time (hh mm ss us : Z) (spec : timespec) : string :=
  let hms := zero_pad 2 hh ++ ":" ++ zero_pad 2 mm ++ ":" ++ zero_pad 2 ss in
  match spec with
  | ts_auto => if us =? 0 then hms else hms ++ "." ++ zero_pad 6 us
  | ts_milliseconds => hms ++ "." ++ zero_pad 3 (us / 1000)
  end.

(** [datetime._format_offset]: the empty string for a naive value. *)
Definition _format_offset (off : option Z) : string :=
  match off with
  | None => ""
  | Some off =>
      let sign := if off <? 0 then "-" else "+" in
      let off := Z.abs off in
      let hh := off / 3600000000 in
      let mm := (off mod 3600000000) / 60000000 in
      let ss_us := off mod 60000000 in
      let s := sign ++ zero_pad 2 hh ++ ":" ++ zero_pad 2 mm in
      if ss_us =? 0 then s
      else
        let s := s ++ ":" ++ zero_pad 2 (ss_us / 1000000) in
        if ss_us mod 1000000 =? 0 then s
        else s ++ "." ++ zero_pad 6 (ss_us mod 1000000)
  end.

(** [date.isoformat()] *)
Definition date_isoformat (y m d : Z) : string :=
  zero_pad 4 y ++ "-" ++ zero_pad 2 m ++ "-" ++ zero_pad 2 d.

(** [datetime.isoformat(timespec=spec)] with the default separator [T]. *)
Definition isoformat (dt : datetime) (spec : timespec) : string :=
  date_isoformat (year dt) (month dt) (day dt) ++ "T"
  ++ _format_time (hour dt) (minute dt) (second dt) (microsecond dt) spec
  ++ _format_offset (tzinfo dt).


(* ===================================================================== *)
(** * Values found in a document                                          *)
(* ===================================================================== *)

(** A Python [float], carried as the text [float.__repr__] gives
    ([NaN], [Infinity] and [-Infinity] for the three special values, as the
    JSON encoder writes them). *)
Record pyfloat := mkFloat { float_repr : string }.

(** Any object of a class the script has no rule for.  What the interpreter
    and the libraries answer about it is part of the object:
    [obj_dumps_exn] is the exception [json.dumps(obj)] ends with (the
    [TypeError] of [JSONEncoder.default], or whatever else the encoder ran
    into, such as a [RecursionError]). *)
Record PyObject := mkObject {
  obj_type_name : string;      (* [type(obj).__name__] *)
  obj_type_repr : string;      (* [str(type(obj))] *)
  obj_dumps_exn : Exn;         (* raised by [json.dumps(obj)] *)
  obj_eq_sentinel : bool       (* [obj == firestore.SERVER_TIMESTAMP] *)
}.

#[local] Set Warnings "-register-all".

Inductive Value :=
| VNone
| VBool (b : bool)
| VInt (n : Z)
| VFloat (f : pyfloat)
| VStr (s : string)
| VList (items : list Value)
| VDict (items : list (string * Value))
| VTimestamp (seconds nanos : Z)          (* protobuf [Timestamp] *)
| VSentinel (description : string)        (* [transforms.Sentinel], the class of [SERVER_TIMESTAMP] *)
| VReference (path : string)              (* [DocumentReference] *)
| VGeoPoint (latitude longitude : pyfloat)
| VDate (y m d : Z)                       (* [datetime.date] *)
| VDatetime (dt : datetime)               (* [datetime.datetime] *)
| VObject (o : PyObject).

(** [firestore.SERVER_TIMESTAMP] *)
Definition SERVER_TIMESTAMP : Value :=
  VSentinel "Value used to set a document field to the server timestamp.".

(** [type(obj).__name__] *)
Definition type_name (obj : Value) : string :=
  match obj with
  | VNone => "NoneType" | VBool _ => "bool" | VInt _ => "int"
  | VFloat _ => "float" | VStr _ => "str" | VList _ => "list"
  | VDict _ => "dict" | VTimestamp _ _ => "Timestamp"
  | VSentinel _ => "Sentinel" | VReference _ => "DocumentReference"
  | VGeoPoint _ _ => "GeoPoint" | VDate _ _ _ => "date"
  | VDatetime _ => "datetime" | VObject o => obj_type_name o
  end.

(** [str(type(obj))] *)
Definition type_repr (obj : Value) : string :=
  match obj with
  | VNone => "<class 'NoneType'>" | VBool _ => "<class 'bool'>"
  | VInt _ => "<class 'int'>" | VFloat _ => "<class 'float'>"
  | VStr _ => "<class 'str'>" | VList _ => "<class 'list'>"
  | VDict _ => "<class 'dict'>"
  | VTimestamp _ _ => "<class 'google.protobuf.timestamp_pb2.Timestamp'>"
  | VSentinel _ => "<class 'google.cloud.firestore_v1.transforms.Sentinel'>"
  | VReference _ => "<class 'google.cloud.firestore_v1.document.DocumentReference'>"
  | VGeoPoint _ _ => "<class 'google.cloud.firestore_v1._helpers.GeoPoint'>"
  | VDate _ _ _ => "<class 'datetime.date'>"
  | VDatetime _ => "<class 'datetime.datetime'>"
  | VObject o => obj_type_repr o
  end.

(* ===================================================================== *)
(** * The JSON encoder of the standard library                            *)
(* ===================================================================== *)

Definition hex_digit (n : nat) : string :=
  chr (if Nat.ltb n 10 then 48 + n else 87 + n)%nat.

(** [json.encoder.ESCAPE_DCT]: the replacement of one character when
    [ensure_ascii] is off (the bytes of a non-ASCII character pass through). *)
Definition escape_char (c : ascii) : string :=
  let n := nat_of_ascii c in
  if Nat.eqb n 92 then "\\"
  else if Nat.eqb n 34 then "\" ++ dquote
  else if Nat.eqb n 8 then "\b"
  else if Nat.eqb n 12 then "\f"
  else if Nat.eqb n 10 then "\n"
  else if Nat.eqb n 13 then "\r"
  else if Nat.eqb n 9 then "\t"
  else if Nat.ltb n 32 then "\u00" ++ hex_digit (n / 16) ++ hex_digit (n mod 16)
  else String c "".

Fixpoint escape (s : string) : string :=
  match s with
  | EmptyString => ""
  | String c rest => escape_char c ++ escape rest
  end.

(** [json.encoder.py_encode_basestring] *)
Definition encode_basestring (s : string) : string := dquote ++ escape s ++ dquote.

(** The layout the encoder derives from its [indent] argument. *)
Definition newline_indent (indent : option nat) (level : nat) : string :=
  match indent with
  | None => ""
  | Some k => newline ++ repeat_string (repeat_string " " k) level
  end.
Definition item_separator (indent : option nat) : string :=
  match indent with None => ", " | Some _ => "," end.
Definition key_separator : string := ": ".

(** [_iterencode] of [json.encoder], joined into one string.  [default]
    receives the nesting level and the object the encoder has no rule for,
    and answers with the text that stands for it. *)
Fixpoint iterencode (indent : option nat) (default : nat -> Value -> M string)
    (level : nat) (o : Value) {struct o} : M string :=
  let sep := item_separator indent ++ newline_indent indent (S level) in
  match o with
  | VStr s => ret (encode_basestring s)
  | VNone => ret "null"
  | VBool true => ret "true"
  | VBool false => ret "false"
  | VInt n => ret (str_int n)
  | VFloat f => ret (float_repr f)
  | VList [] => ret "[]"
  | VList items =>
      chunks <- (fix each (l : list Value) : M (list string) :=
                   match l with
                   | [] => ret []
                   | value :: rest =>
                       c <- iterencode indent default (S level) value ;;
                       cs <- each rest ;;
                       ret (c :: cs)
                   end) items ;;
      ret ("[" ++ newline_indent indent (S level) ++ join sep chunks
               ++ newline_indent indent level ++ "]")
  | VDict [] => ret "{}"
  | VDict items =>
      chunks <- (fix each (l : list (string * Value)) : M (list string) :=
                   match l with
                   | [] => ret []
                   | (key, value) :: rest =>
                       c <- iterencode indent default (S level) value ;;
                       cs <- each rest ;;
                       ret ((encode_basestring key ++ key_separator ++ c) :: cs)
                   end) items ;;
      ret ("{" ++ newline_indent indent (S level) ++ join sep chunks
               ++ newline_indent indent level ++ "}")
  | _ => default level o
  end.

Definition TypeError (msg : string) : Exn := mkExn "TypeError" msg.

(** The encoder without a hook, on an object it has no rule for:
    [JSONEncoder.default] raises [TypeError]. *)
Definition no_default (level : nat) (o : Value) : M string :=
  match o with
  | VObject ob => raise (obj_dumps_exn ob)
  | _ => raise (TypeError ("Object of type " ++ type_name o ++ " is not JSON serializable"))
  end.

(** [json.dumps(obj)] with every option at its default. *)
Definition json_dumps (obj : Value) : M string := iterencode None no_default 0 obj.

(* ===================================================================== *)
(** * [json_serializer]                                                   *)
(* ===================================================================== *)

Definition AttributeError (msg : string) : Exn := mkExn "AttributeError" msg.

(** [obj == firestore.SERVER_TIMESTAMP].  [Sentinel] defines no [__eq__], so
    for the classes modelled here the comparison is identity; an object of
    another class answers for itself. *)
Definition eq_SERVER_TIMESTAMP (obj : Value) : bool :=
  match obj with
  | VSentinel d => String.eqb d "Value used to set a document field to the server timestamp."
  | VObject o => obj_eq_sentinel o
  | _ => false
  end.

(** [try: body  except TypeError: on_type_error  except Exception as e:
    on_other e].  An exception raised inside a handler is not caught by its
    sibling clause. *)
Definition try_except_TypeError {A} (body : M A) (on_type_error : M A)
    (on_other : Exn -> M A) : M A :=
  match body with
  | (Raise e, t) =>
      let (r, t') := if is_TypeError e then on_type_error else on_other e in
      (r, (t ++ t')%list)
  | other => other
  end.

Section Serializer.

(** The builtin [str()], which may raise. *)
Variable py_str : Value -> result string.

(** The rules are tried in the order of the source.  A value of one of the
    classes of the first three rules is equal to [SERVER_TIMESTAMP] only if it
    is an instance of its class, which the first rule takes. *)
Definition json_serializer (obj : Value) : M Value :=
  match obj with
  | VTimestamp seconds nanos =>
      (* a [FirestoreTimestamp]: [hasattr(obj, "ToDatetime")] holds *)
      dt <- lift (ToDatetime seconds nanos) ;;
      let dt_utc := replace_tzinfo dt timezone_utc in
      ret (VStr (isoformat dt_utc ts_milliseconds ++ "Z"))
  | VSentinel _ =>
      (* an instance of [firestore.SERVER_TIMESTAMP.__class__]: it has no
         [ToDatetime], and evaluating [obj.seconds] raises *)
      raise (AttributeError ("'" ++ type_name obj
                                 ++ "' object has no attribute 'seconds'"))
  | VReference path =>
      ret (VStr ("Reference(path='" ++ path ++ "')"))
  | VGeoPoint latitude longitude =>
      ret (VDict [("latitude", VFloat latitude); ("longitude", VFloat longitude)])
  | _ =>
      if eq_SERVER_TIMESTAMP obj then
        ret (VStr "firestore.SERVER_TIMESTAMP")
      else
        match obj with
        | VDate y m d => ret (VStr (date_isoformat y m d))
        | VDatetime dt => ret (VStr (isoformat dt ts_auto))
        | _ =>
            try_except_TypeError
              (json_dumps obj ;; ret obj)
              (s <- lift (py_str obj) ;; ret (VStr s))
              (fun e =>
                 print_stderr ("Warning: Could not serialize object of type "
                                 ++ type_repr obj ++ ": " ++ exn_msg e) ;;
                 ret (VStr ("Unserializable(" ++ type_name obj ++ ")")))
        end
  end.

(** The encoder with [default=json_serializer]: the hook's answer is encoded
    in place of the object.  Its answer never holds an object the encoder has
    no rule for (lemma [json_serializer_answer_plain]), so no hook is needed
    below it. *)
Definition with_json_serializer (level : nat) (o : Value) : M string :=
  r <- json_serializer o ;;
  iterencode (Some 2%nat) no_default level r.

(** [json.dumps(doc_data, indent=2, default=json_serializer,
    ensure_ascii=False)] *)
Definition json_dumps_document (doc_data : Value) : M string :=
  iterencode (Some 2%nat) with_json_serializer 0 doc_data.

End Serializer.

(* ===================================================================== *)
(** * The remote store, as the client library shows it                    *)
(* ===================================================================== *)

(** A [DocumentSnapshot]: [doc_snapshot.reference] and what
    [doc_snapshot.to_dict()] returns. *)
Record DocumentSnapshot := mkSnapshot { reference : DocRef; to_dict : Value }.

(** What iterating [query.stream()] does: it yields snapshots, and either
    ends or raises (straight away when the fetch fails, later when the
    iteration does). *)
Inductive Stream :=
| SEnd
| SFail (e : Exn)
| SYield (doc_snapshot : DocumentSnapshot) (rest : Stream).

(** The store behind the client.  Collections and documents are looked up by
    path, so the tree may be arbitrarily (even endlessly) deep; a document has
    a finite list of subcollections and a stream is a finite object. *)
Record Store := mkStore {
  documents : ColRef -> Stream;                     (* streaming a whole collection *)
  collections : DocRef -> result (list ColRef);     (* [list(doc_ref.collections())] *)
  root_collections : result (list ColRef)           (* [list(db.collections())] *)
}.

(** A query on a collection: [col_ref] itself, or [col_ref.limit(n)]. *)
Record Query := mkQuery { query_col : ColRef; query_limit : option Z }.

(** The server stops a limited query after [n] results. *)
Fixpoint take_stream (n : nat) (s : Stream) : Stream :=
  match n with
  | O => SEnd
  | S k =>
      match s with
      | SYield d rest => SYield d (take_stream k rest)
      | other => other
      end
  end.

(** What the store sends back for a query. *)
Definition stream_of (db : Store) (query : Query) : Stream :=
  match query_limit query with
  | None => documents db (query_col query)
  | Some n => take_stream (Z.to_nat n) (documents db (query_col query))
  end.

(** [query.stream()] *)
Definition stream (db : Store) (query : Query) : M Stream :=
  emit (Request (RStream (query_col query) (query_limit query))) ;;
  ret (stream_of db query).

(** [list(doc_ref.collections())] *)
Definition list_collections (db : Store) (doc_ref : DocRef) : M (list ColRef) :=
  emit (Request (RCollections doc_ref)) ;; lift (collections db doc_ref).

(** [for doc_snapshot in docs_stream: doc_count += 1; body doc_snapshot],
    returning the final [doc_count]. *)
Fixpoint for_stream (docs_stream : Stream) (doc_count : Z)
    (body : DocumentSnapshot -> M unit) : M Z :=
  match docs_stream with
  | SEnd => ret doc_count
  | SFail e => raise e
  | SYield doc_snapshot rest =>
      body doc_snapshot ;; for_stream rest (doc_count + 1) body
  end.

(* ===================================================================== *)
(** * [dump_collection]                                                   *)
(* ===================================================================== *)

Section Traversal.

Variable py_str : Value -> result string.
Variable db : Store.

(** The body of [dump_collection]; the recursive call goes through the
    parameter of the same name. *)
Definition dump_collection_body
    (dump_collection : ColRef -> Z -> Z -> bool -> M unit)
    (col_ref : ColRef) (current_depth max_depth : Z) (no_limit : bool) : M unit :=
  if current_depth >? max_depth then
    print (LMaxDepth current_depth max_depth (ref_id col_ref))
  else
    print (LRuleTop current_depth) ;;
    print (LProcessing current_depth (ref_id col_ref)) ;;
    print (LRule current_depth) ;;
    try_except
      (let limit_count := 5 in
       query <- (if no_limit then
                   print (LFetchingAll current_depth (ref_id col_ref)) ;;
                   ret (mkQuery col_ref None)
                 else
                   print (LFetchingUpTo current_depth limit_count (ref_id col_ref)) ;;
                   ret (mkQuery col_ref (Some limit_count))) ;;
       docs_stream <- stream db query ;;
       doc_count <-
         for_stream docs_stream 0 (fun doc_snapshot =>
           let doc_ref := reference doc_snapshot in
           let doc_data := to_dict doc_snapshot in
           print (LDocument (current_depth + 1) (ref_id doc_ref)) ;;
           text <- json_dumps_document py_str doc_data ;;
           print (LJson text) ;;
           sub_col_list <- list_collections db doc_ref ;;
           match sub_col_list with
           | [] => ret tt
           | _ =>
               print (LCheckingSub (current_depth + 1) (ref_id doc_ref)) ;;
               for_each sub_col_list (fun sub_col_ref =>
                 dump_collection sub_col_ref (current_depth + 1) max_depth no_limit)
           end) ;;
       if doc_count =? 0 then print (LEmpty (current_depth + 1) (ref_id col_ref))
       else ret tt)
      (fun e =>
         print (LErrorWarning (ref_id col_ref)) ;;
         print (LErrorDetails current_depth (exn_msg e))).

(** The recursion, under a budget of nested calls. *)
Fixpoint dump_collection_fuel (fuel : nat) (col_ref : ColRef)
    (current_depth max_depth : Z) (no_limit : bool) : M unit :=
  match fuel with
  | O => exhausted
  | S fuel' =>
      dump_collection_body (dump_collection_fuel fuel')
        col_ref current_depth max_depth no_limit
  end.

(** Nested calls a walk from [current_depth] can need: one per level down to
    [max_depth], and the one that hits the limit.  The depth bound of the
    source is the only bound here: the interpreter's own recursion limit,
    which a [max_depth] close to a thousand would reach first, is not part of
    the model. *)
Definition call_budget (current_depth max_depth : Z) : nat :=
  S (Z.to_nat (max_depth + 1 - current_depth)).

(** [dump_collection(col_ref, current_depth, max_depth, no_limit)] *)
Definition dump_collection (col_ref : ColRef) (current_depth max_depth : Z)
    (no_limit : bool) : M unit :=
  dump_collection_fuel (call_budget current_depth max_depth)
    col_ref current_depth max_depth no_limit.

End Traversal.

(** The text of each printed line, without the newline [print] appends. *)
Definition render_line (l : Line) : string :=
  match l with
  | LMaxDepth depth max_depth col_id =>
      str_mul "  " depth ++ "!!! Max recursion depth (" ++ str_int max_depth
        ++ ") reached for collection: " ++ col_id ++ ". Stopping recursion here. !!!"
  | LRuleTop depth =>
      newline ++ str_mul "  " depth ++ "-----------------------------------------"
  | LProcessing depth col_id =>
      str_mul "  " depth ++ "--- Processing Collection: " ++ col_id ++ " ---"
  | LRule depth =>
      str_mul "  " depth ++ "-----------------------------------------"
  | LFetchingAll depth col_id =>
      str_mul "  " depth ++ "Fetching ALL documents from collection: " ++ col_id
  | LFetchingUpTo depth limit_count col_id =>
      str_mul "  " depth ++ "Fetching up to " ++ str_int limit_count
        ++ " documents from collection: " ++ col_id
  | LDocument depth doc_id =>
      newline ++ str_mul "  " depth ++ "--- Document: " ++ doc_id ++ " ---"
  | LJson text => text
  | LCheckingSub depth doc_id =>
      str_mul "  " depth ++ "--- Checking subcollections for document " ++ doc_id ++ " ---"
  | LEmpty depth col_id =>
      str_mul "  " depth ++ "(Collection '" ++ col_id
        ++ "' appears empty or has no documents directly within it)"
  | LErrorWarning col_id =>
      newline ++ "!!! Warning: Error processing collection '" ++ col_id
        ++ "'. Skipping collection. !!!"
  | LErrorDetails depth msg => str_mul "  " depth ++ "Error details: " ++ msg
  | LText text => text
  end.

(* ===================================================================== *)
(** * The [__main__] block                                                *)
(* ===================================================================== *)

(** The parsed command line, as [parser.parse_args()] returns it. *)
Record Args := mkArgs {
  arg_key_file : string;
  arg_project_id : option string;    (* [--project-id], [None] when absent *)
  arg_max_depth : Z;                 (* [--max-depth], 10 when absent *)
  arg_no_limit : bool                (* [--no-limit] *)
}.

(** [credentials.Certificate]: the project named by the key file. *)
Record Credential := mkCredential { cred_project_id : option string }.

(** A [firebase_admin.App]: its credential and its options. *)
Record App := mkApp {
  app_credential : Credential;
  app_options : list (string * string)
}.

(** What the process finds around it: the file system, the Admin SDK and the
    stores that can be reached, one per project. *)
Record Env := mkEnv {
  path_exists : string -> bool;                 (* [os.path.exists] *)
  open_read : string -> result string;          (* [open(path, "r")], the content *)
  json_load : string -> result Value;           (* [json.load] *)
  Certificate : Value -> result Credential;     (* [credentials.Certificate] *)
  _apps : option App;                           (* [firebase_admin._apps], the default app *)
  FIREBASE_CONFIG : list (string * string);     (* options taken from the environment *)
  GOOGLE_CLOUD_PROJECT : option string;
  store_of_project : string -> result Store     (* the database of a project *)
}.

Fixpoint options_get (key : string) (options : list (string * string)) : option string :=
  match options with
  | [] => None
  | (k, v) :: rest => if String.eqb k key then Some v else options_get key rest
  end.

(** Truth value of an optional string: [None] and [''] are false. *)
Definition truthy (s : option string) : bool :=
  match s with
  | None => false
  | Some v => negb (String.eqb v "")
  end.

(** [firebase_admin.initialize_app(credential, options)] when no default app
    exists: options that are not passed are read from the environment. *)
Definition initialize_app (env : Env) (credential : Credential)
    (options : option (list (string * string))) : App :=
  mkApp credential (match options with
                    | Some o => o
                    | None => FIREBASE_CONFIG env
                    end).

(** [App.project_id]: the [projectId] option, else the credential's project,
    else the environment's. *)
Definition app_project_id (env : Env) (app : App) : option string :=
  if truthy (options_get "projectId" (app_options app)) then
    options_get "projectId" (app_options app)
  else if truthy (cred_project_id (app_credential app)) then
    cred_project_id (app_credential app)
  else GOOGLE_CLOUD_PROJECT env.

(** [firestore.client()] on the default app: the database of the app's
    project. *)
Definition firestore_client (env : Env) (app : App) : result Store :=
  match app_project_id env app with
  | Some p => store_of_project env p
  | None =>
      Error (ValueError "Project ID is required to access Firestore. Either set the projectId option, or use service account credentials. Alternatively, set the GOOGLE_CLOUD_PROJECT environment variable.")
  end.

(** [str(x)] for an optional string. *)
Definition str_option (x : option string) : string :=
  match x with Some v => v | None => "None" end.

Section Main.

Variable py_str : Value -> result string.
Variable env : Env.
Variable args : Args.

(** Lines 173-208, the body of the first [try]: the app, the client and the
    project the app reports. *)
Definition init_firebase : M (App * Store * option string) :=
  let service_account_key_path := arg_key_file args in
  let project_id_override := arg_project_id args in
  print (LText (newline ++ "Attempting to load service account key from: "
                  ++ service_account_key_path)) ;;
  f <- lift (open_read env service_account_key_path) ;;
  print (LText "Successfully opened key file") ;;
  key_data <- lift (json_load env f) ;;
  print (LText "Successfully parsed key file JSON") ;;
  print (LText "Initializing credentials...") ;;
  cred <- lift (Certificate env key_data) ;;
  print (LText "Credentials initialized successfully") ;;
  init_options <-
    (if truthy project_id_override then
       print (LText ("Using override project ID: " ++ str_option project_id_override)) ;;
       ret [("projectId", str_option project_id_override)]
     else ret []) ;;
  app <- match _apps env with
         | None =>
             print (LText "Initializing new Firebase Admin app...") ;;
             (* [firebase_admin.initialize_app(cred)]: [init_options] is not passed *)
             let app := initialize_app env cred None in
             print (LText "Firebase Admin app initialized successfully") ;;
             ret app
         | Some app =>
             print (LText "Firebase Admin already initialized") ;;
             ret app
         end ;;
  db <- lift (firestore_client env app) ;;
  let actual_project_id := app_project_id env app in
  print (LText ("--- Successfully initialized Firebase Admin SDK for project: "
                  ++ str_option actual_project_id ++ " ---")) ;;
  ret (app, db, actual_project_id).

(** Lines 219-240, the body of the second [try]; the value is the exit
    status. *)
Definition dump_top_level (db : Store) (actual_project_id : option string) : M Z :=
  let max_recursion_depth := arg_max_depth args in
  print (LText (newline ++ "Fetching top-level collections...")) ;;
  top_level_collections <-
    (emit (Request RRootCollections) ;; lift (root_collections db)) ;;
  match top_level_collections with
  | [] =>
      print (LText "No top-level collections found in this database.") ;;
      print (LText "--- Firestore Data Dump Complete (No Data) ---") ;;
      ret 0
  | _ =>
      print (LText ("Found " ++ str_int (Z.of_nat (List.length top_level_collections))
                      ++ " top-level collections.")) ;;
      print (LText (newline ++ "Fetching data recursively (this may take time and incur read costs)...")) ;;
      for_each top_level_collections (fun collection_ref =>
        dump_collection py_str db collection_ref 0 max_recursion_depth
                        (arg_no_limit args)) ;;
      print (LText (newline ++ "-----------------------------------------")) ;;
      print (LText ("--- End of Firestore Data Dump (" ++ str_option actual_project_id
                      ++ ") ---")) ;;
      ret 0
  end.

(** Lines 161-244: the block from the point where [parser.parse_args()] has
    returned [args] (a command line that [argparse] refuses, or [-h], ends
    the process before, with its own status); the value is the exit status
    of the process. *)
Definition main : M Z :=
  let service_account_key_path := arg_key_file args in
  if negb (path_exists env service_account_key_path) then
    print (LText ("Error: Service account key file not found at '"
                    ++ service_account_key_path ++ "'")) ;;
    ret 1
  else
    print (LText "--- Starting Firestore Data Dump (Python Admin SDK) ---") ;;
    started <-
      try_except
        (r <- init_firebase ;; ret (Some r))
        (fun e =>
           print (LText (newline ++ "Detailed error initializing Firebase Admin SDK:")) ;;
           print (LText ("Error type: " ++ exn_class e)) ;;
           print (LText ("Error message: " ++ exn_msg e)) ;;
           print (LText "Ensure the key file is valid and has the necessary permissions in IAM.") ;;
           ret None) ;;
    match started with
    | None => ret 1
    | Some (_, db, actual_project_id) =>
        try_except
          (dump_top_level db actual_project_id)
          (fun e =>
             print (LText (newline ++ "An unexpected error occurred during data fetching: "
                             ++ exn_msg e)) ;;
             ret 1)
    end.

End Main.

(* ===================================================================== *)
(** * Properties of computations                                        *)
(* ===================================================================== *)

(** The computation does not run out of budget. *)
Definition finishes {A} (m : M A) : Prop := fst m <> Exhausted.

(** Every event of the computation satisfies [Q]. *)
Definition emits {A} (Q : Event -> Prop) (m : M A) : Prop := Forall Q (snd m).

(* ===================================================================== *)
(** * The encoder and the serializer, piece by piece                    *)
(* ===================================================================== *)

(** The two inner loops of [iterencode], by name. *)
Section EncoderLoops.

Variable indent : option nat.
Variable default : nat -> Value -> M string.
Variable level : nat.

Fixpoint encode_list (l : list Value) : M (list string) :=
  match l with
  | [] => ret []
  | value :: rest =>
      c <- iterencode indent default level value ;;
      cs <- encode_list rest ;;
      ret (c :: cs)
  end.

Fixpoint encode_dict (l : list (string * Value)) : M (list string) :=
  match l with
  | [] => ret []
  | (key, value) :: rest =>
      c <- iterencode indent default level value ;;
      cs <- encode_dict rest ;;
      ret ((encode_basestring key ++ key_separator ++ c) :: cs)
  end.

End EncoderLoops.

(** The text of a non-empty list or mapping, from the text of its items. *)
Definition bracket (indent : option nat) (level : nat) (opening closing : string)
    (chunks : list string) : string :=
  opening ++ newline_indent indent (S level)
    ++ join (item_separator indent ++ newline_indent indent (S level)) chunks
    ++ newline_indent indent level ++ closing.

Definition is_container (v : Value) : bool :=
  match v with VList _ | VDict _ => true | _ => false end.

(** The values [iterencode] writes by its own rules; it hands every other
    object to [default]. *)
Definition is_json_native (v : Value) : bool :=
  match v with
  | VNone | VBool _ | VInt _ | VFloat _ | VStr _ | VList _ | VDict _ => true
  | _ => false
  end.

(** [isinstance(obj, (firestore.SERVER_TIMESTAMP.__class__, FirestoreTimestamp))] *)
Definition isinstance_timestamp (obj : Value) : bool :=
  match obj with VTimestamp _ _ | VSentinel _ => true | _ => false end.

(** [isinstance(obj, DocumentReference)] *)
Definition isinstance_DocumentReference (obj : Value) : bool :=
  match obj with VReference _ => true | _ => false end.

(** [isinstance(obj, GeoPoint)] *)
Definition isinstance_GeoPoint (obj : Value) : bool :=
  match obj with VGeoPoint _ _ => true | _ => false end.

(** [isinstance(obj, (datetime.date, datetime.datetime))] *)
Definition isinstance_date (obj : Value) : bool :=
  match obj with VDate _ _ _ | VDatetime _ => true | _ => false end.

(** No special-case rule of [json_serializer] matches the value. *)
Definition unmatched (obj : Value) : bool :=
  negb (isinstance_timestamp obj)
  && negb (isinstance_DocumentReference obj)
  && negb (isinstance_GeoPoint obj)
  && negb (eq_SERVER_TIMESTAMP obj)
  && negb (isinstance_date obj).

(** The warning [json_serializer] writes on the diagnostic stream. *)
Definition serialize_warning (obj : Value) (e : Exn) : string :=
  "Warning: Could not serialize object of type " ++ type_repr obj ++ ": " ++ exn_msg e.

(** The placeholder it returns with the warning. *)
Definition placeholder (obj : Value) : string :=
  "Unserializable(" ++ type_name obj ++ ")".

(** The text of a field whose value was replaced by the placeholder. *)
Definition placeholder_chunk (key : string) (obj : Value) : string :=
  encode_basestring key ++ key_separator ++ encode_basestring (placeholder obj).

(** The rendering the specification asks of a timestamp, following its
    words: the UTC date and time of [seconds + nanos/1e9] seconds since the
    epoch, cut to milliseconds, in ISO-8601 form with a closing [Z]. *)
Definition iso8601_utc_milliseconds_Z (seconds nanos : Z) : string :=
  let total_ms := (seconds * 1000000000 + nanos) / 1000000 in
  let days := total_ms / 86400000 in
  let ms_of_day := total_ms mod 86400000 in
  let '(y, m, d) := _ord2ymd (_EPOCH_ORDINAL + days) in
  let secs := ms_of_day / 1000 in
  date_isoformat y m d ++ "T"
    ++ zero_pad 2 (secs / 3600) ++ ":" ++ zero_pad 2 ((secs mod 3600) / 60) ++ ":"
    ++ zero_pad 2 (secs mod 60) ++ "." ++ zero_pad 3 (ms_of_day mod 1000) ++ "Z".

(* ===================================================================== *)
(** * The traversal, piece by piece                                     *)
(* ===================================================================== *)

(** The query [dump_collection] builds for a collection. *)
Definition query_for (col_ref : ColRef) (no_limit : bool) : Query :=
  mkQuery col_ref (if no_limit then None else Some 5).

(** The body of the [for] loop of [dump_collection], by name. *)
Definition visit_document (py_str : Value -> result string) (db : Store)
    (dump_collection : ColRef -> Z -> Z -> bool -> M unit)
    (current_depth max_depth : Z) (no_limit : bool)
    (doc_snapshot : DocumentSnapshot) : M unit :=
  let doc_ref := reference doc_snapshot in
  let doc_data := to_dict doc_snapshot in
  print (LDocument (current_depth + 1) (ref_id doc_ref)) ;;
  text <- json_dumps_document py_str doc_data ;;
  print (LJson text) ;;
  sub_col_list <- list_collections db doc_ref ;;
  match sub_col_list with
  | [] => ret tt
  | _ =>
      print (LCheckingSub (current_depth + 1) (ref_id doc_ref)) ;;
      for_each sub_col_list (fun sub_col_ref =>
        dump_collection sub_col_ref (current_depth + 1) max_depth no_limit)
  end.

(** What a visited collection prints before its documents, and the read it
    issues. *)
Definition collection_prologue (col_ref : ColRef) (current_depth : Z)
    (no_limit : bool) : Trace :=
  [Stdout (LRuleTop current_depth);
   Stdout (LProcessing current_depth (ref_id col_ref));
   Stdout (LRule current_depth);
   Stdout (if no_limit then LFetchingAll current_depth (ref_id col_ref)
           else LFetchingUpTo current_depth 5 (ref_id col_ref));
   Request (RStream col_ref (if no_limit then None else Some 5))].

(** What it prints after them, by the way the loop ended. *)
Definition collection_epilogue (col_ref : ColRef) (current_depth : Z)
    (loop : outcome Z) : Trace :=
  match loop with
  | Ret doc_count =>
      if doc_count =? 0 then [Stdout (LEmpty (current_depth + 1) (ref_id col_ref))]
      else []
  | Raise e =>
      [Stdout (LErrorWarning (ref_id col_ref));
       Stdout (LErrorDetails current_depth (exn_msg e))]
  | Exhausted => []
  end.

(** The number of snapshots a stream yields. *)
Fixpoint stream_length (s : Stream) : nat :=
  match s with
  | SYield _ rest => S (stream_length rest)
  | _ => 0%nat
  end.

(** The stream raises, at once or after some snapshots. *)
Fixpoint ends_in_failure (s : Stream) : bool :=
  match s with
  | SEnd => false
  | SFail _ => true
  | SYield _ rest => ends_in_failure rest
  end.

(** The stream that yields [docs] and goes on as [tail]. *)
Fixpoint yield_all (docs : list DocumentSnapshot) (tail : Stream) : Stream :=
  match docs with
  | [] => tail
  | doc_snapshot :: rest => SYield doc_snapshot (yield_all rest tail)
  end.

(** The runs of the loop body of [dump_collection] on [docs], one after the
    other. *)
Definition visits (py_str : Value -> result string) (db : Store)
    (current_depth max_depth : Z) (no_limit : bool)
    (docs : list DocumentSnapshot) : Trace :=
  flat_map
    (fun doc_snapshot =>
       snd (visit_document py_str db (dump_collection py_str db)
              current_depth max_depth no_limit doc_snapshot))
    docs.

(** The runs of [dump_collection] on [cols], one after the other. *)
Definition runs (py_str : Value -> result string) (db : Store)
    (current_depth max_depth : Z) (no_limit : bool) (cols : list ColRef) : Trace :=
  flat_map
    (fun col_ref =>
       snd (dump_collection py_str db col_ref current_depth max_depth no_limit))
    cols.

(** The document can be printed and its subcollections can be listed:
    neither [json.dumps] on its content nor [doc_ref.collections()] raises. *)
Definition visitable (py_str : Value -> result string) (db : Store)
    (doc_snapshot : DocumentSnapshot) : Prop :=
  (exists text t,
      json_dumps_document py_str (to_dict doc_snapshot) = (Ret text, t))
  /\ exists subs, collections db (reference doc_snapshot) = Ok subs.

(** The depth of every call of [dump_collection] in a run: each call starts
    by printing either the depth-limit notice or the top rule of the banner,
    both indented by its [current_depth]. *)
Definition call_depths (t : Trace) : list Z :=
  flat_map (fun ev =>
              match ev with
              | Stdout (LMaxDepth k _ _) => [k]
              | Stdout (LRuleTop k) => [k]
              | _ => []
              end) t.

(** The documents visited at a given depth: the ids in the document headers
    printed at that indentation. *)
Definition document_headers (depth : Z) (t : Trace) : list string :=
  flat_map (fun ev =>
              match ev with
              | Stdout (LDocument k doc_id) => if k =? depth then [doc_id] else []
              | _ => []
              end) t.

(** At most [n] documents are visited at the given depth. *)
Definition visits_at_most {A} (depth : Z) (n : nat) (m : M A) : Prop :=
  (List.length (document_headers depth (snd m)) <= n)%nat.

(** Every fetch of a run carries the limit [limit]. *)
Definition fetches_with (limit : option Z) (ev : Event) : Prop :=
  match ev with
  | Request (RStream _ l) => l = limit
  | _ => True
  end.

(** Calls of [dump_collection] stay between depth [lo] and depth [hi], and
    document headers are printed one level below [lo] or deeper. *)
Definition within_depths (lo hi : Z) (ev : Event) : Prop :=
  match ev with
  | Stdout (LMaxDepth k _ _) => lo <= k <= hi
  | Stdout (LRuleTop k) => lo <= k <= hi
  | Stdout (LDocument k _) => lo + 1 <= k
  | _ => True
  end.

(** What a run with a negative [--max-depth] may do: print fixed messages and
    depth-limit notices for depth 0, and list the root collections. *)
Definition only_notices (max_depth : Z) (ev : Event) : Prop :=
  match ev with
  | Stdout (LText _) => True
  | Stdout (LMaxDepth k md _) => k = 0 /\ md = max_depth
  | Stdout _ => False
  | Stderr _ => True
  | Request r => r = RRootCollections
  end.

(** The same command line without [--project-id]. *)
Definition without_override (args : Args) : Args :=
  mkArgs (arg_key_file args) None (arg_max_depth args) (arg_no_limit args).

(* ===================================================================== *)
(** * Sample surroundings, for concrete runs                            *)
(* ===================================================================== *)

(** A [str()] that always answers. *)
Definition sample_str (v : Value) : result string := Ok ("<" ++ type_name v ++ ">").

(** A [str()] that raises on every object. *)
Definition failing_str (v : Value) : result string :=
  Error (mkExn "RuntimeError" "__str__ failed").

Definition path_eqb (p q : list string) : bool :=
  if list_eq_dec string_dec p q then true else false.

(** [users] holds documents [a] and [b]; [a] owns [posts], whose fetch is
    refused, and [likes], which is empty. *)
Definition sample_db : Store :=
  mkStore
    (fun c =>
       if path_eqb c ["users"] then
         SYield (mkSnapshot ["users"; "a"] (VDict [("n", VInt 1)]))
           (SYield (mkSnapshot ["users"; "b"] (VDict [])) SEnd)
       else if path_eqb c ["users"; "a"; "posts"] then
         SFail (mkExn "PermissionDenied" "403 Missing or insufficient permissions.")
       else SEnd)
    (fun d =>
       if path_eqb d ["users"; "a"] then
         Ok [["users"; "a"; "posts"]; ["users"; "a"; "likes"]]
       else Ok [])
    (Ok [["users"]]).

(** [users] yields document [a] and then the iteration breaks; [a] owns
    [posts], whose fetch is refused, and [likes], which is empty. *)
Definition flaky_db : Store :=
  mkStore
    (fun c =>
       if path_eqb c ["users"] then
         SYield (mkSnapshot ["users"; "a"] (VDict [("n", VInt 1)]))
           (SFail (mkExn "ServiceUnavailable" "503 The service is currently unavailable."))
       else if path_eqb c ["users"; "a"; "posts"] then
         SFail (mkExn "PermissionDenied" "403 Missing or insufficient permissions.")
       else SEnd)
    (fun d =>
       if path_eqb d ["users"; "a"] then
         Ok [["users"; "a"; "posts"]; ["users"; "a"; "likes"]]
       else Ok [])
    (Ok [["users"]]).

(** A store that never bottoms out: every collection holds one document and
    every document owns one subcollection. *)
Definition endless_db : Store :=
  mkStore (fun c => SYield (mkSnapshot (c ++ ["doc"])%list (VDict [])) SEnd)
          (fun d => Ok [(d ++ ["sub"])%list])
          (Ok [["root"]]).

(** [count] documents named [from], [from+1], ... with no fields. *)
Fixpoint numbered_docs (col : ColRef) (from : Z) (count : nat) : Stream :=
  match count with
  | O => SEnd
  | S k =>
      SYield (mkSnapshot (col ++ [str_int from])%list (VDict []))
             (numbered_docs col (from + 1) k)
  end.

(** A store whose collections all hold [n] documents without subcollections. *)
Definition wide_db (n : nat) : Store :=
  mkStore (fun c => numbered_docs c 0 n) (fun _ => Ok []) (Ok [["c"]]).

Definition sample_env : Env :=
  mkEnv (fun _ => true) (fun _ => Ok "{}") (fun _ => Ok (VDict []))
        (fun _ => Ok (mkCredential (Some "key-project")))
        None [] None
        (fun p => if String.eqb p "key-project" then Ok sample_db
                  else Ok (wide_db 0)).

(** The text printed for document [a] of the sample store. *)
Definition json_text_of_a : string :=
  "{" ++ newline ++ "  " ++ dquote ++ "n" ++ dquote ++ ": 1" ++ newline ++ "}".

(** An object the encoder has no rule for, as it meets them in practice:
    [json.dumps] ends with the [TypeError] of [JSONEncoder.default]. *)
Definition plain_object : PyObject :=
  mkObject "Blob" "<class 'Blob'>"
           (TypeError "Object of type Blob is not JSON serializable") false.

(** An object on which the encoder gives up for another reason. *)
Definition deep_object : PyObject :=
  mkObject "Deep" "<class 'Deep'>"
           (mkExn "RecursionError" "maximum recursion depth exceeded") false.

(** Collection [c] holds document [a], with a field whose value is
    [plain_object], and document [b]. *)
Definition fragile_db : Store :=
  mkStore
    (fun _ =>
       SYield (mkSnapshot ["c"; "a"] (VDict [("x", VObject plain_object); ("y", VInt 2)]))
         (SYield (mkSnapshot ["c"; "b"] (VDict [("y", VInt 3)])) SEnd))
    (fun _ => Ok [])
    (Ok [["c"]]).

(* ===================================================================== *)
(** * Induction on values, through lists and mappings                     *)
(* ===================================================================== *)

Section ValueInduction.

Variable P : Value -> Prop.
Hypothesis P_leaf : forall v, is_container v = false -> P v.
Hypothesis P_list : forall items, Forall P items -> P (VList items).
Hypothesis P_dict : forall items, Forall (fun kv => P (snd kv)) items -> P (VDict items).

Fixpoint Value_nested_ind (v : Value) : P v :=
  match v with
  | VList items =>
      P_list items
        ((fix all (l : list Value) : Forall P l :=
            match l with
            | [] => Forall_nil P
            | x :: rest => Forall_cons x (Value_nested_ind x) (all rest)
            end) items)
  | VDict items =>
      P_dict items
        ((fix all (l : list (string * Value)) : Forall (fun kv => P (snd kv)) l :=
            match l with
            | [] => Forall_nil _
            | kv :: rest =>
                Forall_cons (P := fun kv => P (snd kv)) kv
                  (Value_nested_ind (snd kv)) (all rest)
            end) items)
  | other => P_leaf other eq_refl
  end.

End ValueInduction.

(* ===================================================================== *)
(** * Further notions, for the properties beyond the specification        *)
(* ===================================================================== *)

(** A value the encoder writes by its own rules all the way down. *)
Fixpoint json_safe (v : Value) : bool :=
  match v with
  | VNone | VBool _ | VInt _ | VFloat _ | VStr _ => true
  | VList items => forallb json_safe items
  | VDict items => forallb (fun kv => json_safe (snd kv)) items
  | _ => false
  end.

(** The text of a value, for the values that have one without a hook. *)
Definition json_text (indent : option nat) (level : nat) (v : Value) : string :=
  match fst (iterencode indent no_default level v) with
  | Ret text => text
  | _ => ""
  end.

(** The ids of the documents a stream yields, in order. *)
Fixpoint stream_ids (s : Stream) : list string :=
  match s with
  | SYield doc_snapshot rest => ref_id (reference doc_snapshot) :: stream_ids rest
  | _ => []
  end.

(** The collections fetched during a run, in order. *)
Definition fetched_collections (t : Trace) : list ColRef :=
  flat_map (fun ev => match ev with Request (RStream c _) => [c] | _ => [] end) t.

(** How many events of a kind a run holds. *)
Definition count_events (p : Event -> bool) (t : Trace) : nat :=
  List.length (filter p t).

Definition is_fetch (ev : Event) : bool :=
  match ev with Request (RStream _ _) => true | _ => false end.
Definition is_banner (ev : Event) : bool :=
  match ev with Stdout (LRuleTop _) => true | _ => false end.
Definition is_listing (ev : Event) : bool :=
  match ev with Request (RCollections _) => true | _ => false end.
Definition is_json (ev : Event) : bool :=
  match ev with Stdout (LJson _) => true | _ => false end.

(** A run holds as many events of kind [p] as of kind [q]. *)
Definition paired (p q : Event -> bool) {A} (m : M A) : Prop :=
  count_events p (snd m) = count_events q (snd m).

(** Empty-collection notices are printed one level below [lo] or deeper. *)
Definition empties_below (lo : Z) (ev : Event) : Prop :=
  match ev with
  | Stdout (LEmpty k _) => lo + 1 <= k
  | _ => True
  end.

(** What the visit of a document prints and reads once its content is
    printed: the listing of its subcollections and, when there are some, the
    line announcing them and their runs. *)
Definition subcollections_trace (db : Store)
    (dump_collection : ColRef -> Z -> Z -> bool -> M unit)
    (current_depth max_depth : Z) (no_limit : bool) (doc_ref : DocRef) : Trace :=
  Request (RCollections doc_ref)
  :: match collections db doc_ref with
     | Ok (c :: rest) =>
         Stdout (LCheckingSub (current_depth + 1) (ref_id doc_ref))
         :: snd (for_each (c :: rest) (fun sub_col_ref =>
                   dump_collection sub_col_ref (current_depth + 1) max_depth no_limit))
     | _ => []
     end.


(** The event of a run with [--no-limit], as the run without the flag has
    it: the fetch line and the fetch itself carry the limit. *)
Definition as_limited (ev : Event) : Event :=
  match ev with
  | Stdout (LFetchingAll depth col_id) => Stdout (LFetchingUpTo depth 5 col_id)
  | Request (RStream c None) => Request (RStream c (Some 5))
  | _ => ev
  end.

(* ===================================================================== *)
(** * Laws of the computation monad                                       *)
(* ===================================================================== *)

Lemma bind_fst {A B} (m : M A) (f : A -> M B) :
  fst (bind m f) =
  match fst m with
  | Ret a => fst (f a)
  | Raise e => Raise e
  | Exhausted => Exhausted
  end.
Proof.
  destruct m as [[a | e |] t]; simpl; try reflexivity.
  destruct (f a); reflexivity.
Qed.

Lemma bind_snd {A B} (m : M A) (f : A -> M B) :
  snd (bind m f) =
  (snd m ++ match fst m with Ret a => snd (f a) | _ => [] end)%list.
Proof.
  destruct m as [[a | e |] t]; simpl; try (now rewrite app_nil_r).
  destruct (f a); reflexivity.
Qed.

Lemma bind_ret_l {A B} (a : A) (f : A -> M B) : bind (ret a) f = f a.
Proof. unfold bind, ret. destruct (f a); reflexivity. Qed.

Lemma bind_ext {A B} (m : M A) (f g : A -> M B) :
  (forall a, f a = g a) -> bind m f = bind m g.
Proof.
  intros H. destruct m as [[a | e |] t]; simpl; try reflexivity.
  now rewrite H.
Qed.

Lemma bind_run {A B} (m : M A) (f : A -> M B) (a : A) (t : Trace) :
  m = (Ret a, t) -> bind m f = (fst (f a), (t ++ snd (f a))%list).
Proof. intros ->. simpl. destruct (f a); reflexivity. Qed.

Lemma bind_assoc {A B C} (m : M A) (f : A -> M B) (g : B -> M C) :
  bind (bind m f) g = bind m (fun a => bind (f a) g).
Proof.
  destruct m as [[a | e |] t]; simpl; try reflexivity.
  destruct (f a) as [[b | e |] t']; simpl; try reflexivity.
  destruct (g b) as [r t'']. now rewrite app_assoc.
Qed.

Lemma try_except_fst {A} (m : M A) (h : Exn -> M A) :
  fst (try_except m h) =
  match fst m with
  | Raise e => fst (h e)
  | other => other
  end.
Proof.
  destruct m as [[a | e |] t]; simpl; try reflexivity.
  destruct (h e); reflexivity.
Qed.

Lemma try_except_snd {A} (m : M A) (h : Exn -> M A) :
  snd (try_except m h) =
  (snd m ++ match fst m with Raise e => snd (h e) | _ => [] end)%list.
Proof.
  destruct m as [[a | e |] t]; simpl; try (now rewrite app_nil_r).
  destruct (h e); reflexivity.
Qed.

Lemma for_each_ext {A} (xs : list A) (f g : A -> M unit) :
  (forall x, In x xs -> f x = g x) -> for_each xs f = for_each xs g.
Proof.
  induction xs as [| x rest IH]; intros H; simpl; [reflexivity |].
  rewrite (H x (or_introl eq_refl)).
  apply bind_ext. intros _. apply IH. intros y Hy. apply H. now right.
Qed.

Lemma for_stream_ext (s : Stream) (n : Z) (f g : DocumentSnapshot -> M unit) :
  (forall d, f d = g d) -> for_stream s n f = for_stream s n g.
Proof.
  intros H. revert n.
  induction s as [| e | d rest IH]; intros n; simpl; try reflexivity.
  rewrite H. apply bind_ext. intros _. apply IH.
Qed.

(** ** Properties of a computation that [ret] and [bind] preserve *)

Lemma finishes_ret {A} (a : A) : finishes (ret a).
Proof. discriminate. Qed.

Lemma finishes_lift {A} (r : result A) : finishes (lift r).
Proof. destruct r; discriminate. Qed.

Lemma finishes_emit ev : finishes (emit ev).
Proof. discriminate. Qed.

Lemma finishes_bind {A B} (m : M A) (f : A -> M B) :
  finishes m -> (forall a, finishes (f a)) -> finishes (bind m f).
Proof.
  unfold finishes. intros Hm Hf. rewrite bind_fst.
  destruct (fst m); [apply Hf | discriminate | contradiction].
Qed.

Lemma finishes_try_except {A} (m : M A) (h : Exn -> M A) :
  finishes m -> (forall e, finishes (h e)) -> finishes (try_except m h).
Proof.
  unfold finishes. intros Hm Hh. rewrite try_except_fst.
  destruct (fst m); [discriminate | apply Hh | contradiction].
Qed.

Lemma emits_ret {A} Q (a : A) : emits Q (ret a).
Proof. constructor. Qed.

Lemma emits_lift {A} Q (r : result A) : emits Q (lift r).
Proof. destruct r; constructor. Qed.

Lemma emits_emit (Q : Event -> Prop) ev : Q ev -> emits Q (emit ev).
Proof. intros H. repeat constructor. exact H. Qed.

Lemma emits_bind {A B} Q (m : M A) (f : A -> M B) :
  emits Q m -> (forall a, emits Q (f a)) -> emits Q (bind m f).
Proof.
  unfold emits. intros Hm Hf. rewrite bind_snd. apply Forall_app. split; [exact Hm |].
  destruct (fst m); [apply Hf | constructor | constructor].
Qed.

Lemma emits_try_except {A} Q (m : M A) (h : Exn -> M A) :
  emits Q m -> (forall e, emits Q (h e)) -> emits Q (try_except m h).
Proof.
  unfold emits. intros Hm Hh. rewrite try_except_snd. apply Forall_app. split; [exact Hm |].
  destruct (fst m); [constructor | apply Hh | constructor].
Qed.

Lemma emits_weaken {A} (Q Q' : Event -> Prop) (m : M A) :
  (forall ev, Q ev -> Q' ev) -> emits Q m -> emits Q' m.
Proof. intros H. apply Forall_impl. exact H. Qed.

Lemma finishes_for_each {A} (xs : list A) (f : A -> M unit) :
  (forall x, finishes (f x)) -> finishes (for_each xs f).
Proof.
  intros H. induction xs; simpl; [apply finishes_ret |].
  apply finishes_bind; auto.
Qed.

Lemma emits_for_each {A} Q (xs : list A) (f : A -> M unit) :
  (forall x, emits Q (f x)) -> emits Q (for_each xs f).
Proof.
  intros H. induction xs; simpl; [apply emits_ret |].
  apply emits_bind; auto.
Qed.

Lemma finishes_for_stream s n f :
  (forall d, finishes (f d)) -> finishes (for_stream s n f).
Proof.
  intros H. revert n. induction s; intros n; simpl; try discriminate.
  apply finishes_bind; auto.
Qed.

Lemma emits_for_stream Q s n f :
  (forall d, emits Q (f d)) -> emits Q (for_stream s n f).
Proof.
  intros H. revert n. induction s; intros n; simpl; try constructor.
  apply emits_bind; auto.
Qed.

Create HintDb finishes.
Create HintDb emits.

#[local] Hint Resolve finishes_ret finishes_lift finishes_emit finishes_bind
  finishes_try_except finishes_for_each finishes_for_stream : finishes.
#[local] Hint Resolve emits_ret emits_lift emits_emit emits_bind
  emits_try_except emits_for_each emits_for_stream : emits.

(* ===================================================================== *)
(** * The encoder, loop by loop                                           *)
(* ===================================================================== *)

Lemma iterencode_list_eq indent default level x rest :
  iterencode indent default level (VList (x :: rest)) =
  (chunks <- encode_list indent default (S level) (x :: rest) ;;
   ret (bracket indent level "[" "]" chunks)).
Proof. reflexivity. Qed.

Lemma iterencode_dict_eq indent default level kv rest :
  iterencode indent default level (VDict (kv :: rest)) =
  (chunks <- encode_dict indent default (S level) (kv :: rest) ;;
   ret (bracket indent level "{" "}" chunks)).
Proof. reflexivity. Qed.

Lemma iterencode_dict_nonempty indent default level items :
  items <> [] ->
  iterencode indent default level (VDict items) =
  (chunks <- encode_dict indent default (S level) items ;;
   ret (bracket indent level "{" "}" chunks)).
Proof. destruct items; [congruence | reflexivity]. Qed.

(** Whatever [ret], [bind] and the hook preserve, the encoder preserves. *)
Lemma iterencode_preserves (P : forall A, M A -> Prop)
    (P_ret : forall A (a : A), P A (ret a))
    (P_bind : forall A B (m : M A) (f : A -> M B),
        P A m -> (forall a, P B (f a)) -> P B (bind m f))
    indent default
    (P_default : forall level o, P string (default level o)) :
  forall o level, P string (iterencode indent default level o).
Proof.
  induction o as [v Hv | items IH | items IH] using Value_nested_ind; intros level.
  - destruct v; try discriminate Hv; simpl; try apply P_ret; try apply P_default.
    destruct b; apply P_ret.
  - destruct items as [| x rest]; [apply P_ret |].
    rewrite iterencode_list_eq. apply P_bind; [| intros; apply P_ret].
    generalize (S level) as lv. intros lv.
    induction IH as [| y l Hy _ IHl]; simpl; [apply P_ret |].
    apply P_bind; [apply Hy |]. intros c.
    apply P_bind; [apply IHl |]. intros cs. apply P_ret.
  - destruct items as [| kv rest]; [apply P_ret |].
    rewrite iterencode_dict_eq. apply P_bind; [| intros; apply P_ret].
    generalize (S level) as lv. intros lv.
    induction IH as [| [k y] l Hy _ IHl]; simpl; [apply P_ret |].
    apply P_bind; [apply Hy |]. intros c.
    apply P_bind; [apply IHl |]. intros cs. apply P_ret.
Qed.

(* ===================================================================== *)
(** * The serializer and the encoder: what they can do                    *)
(* ===================================================================== *)

Lemma emits_nothing {A} (m : M A) : emits (fun _ => False) m -> snd m = [].
Proof.
  unfold emits. destruct (snd m) as [| ev t]; [reflexivity |].
  intros H. inversion H. contradiction.
Qed.

Lemma finishes_raise {A} (e : Exn) : finishes (@raise A e).
Proof. discriminate. Qed.

Lemma emits_raise {A} Q (e : Exn) : emits Q (@raise A e).
Proof. constructor. Qed.

#[local] Hint Resolve finishes_raise : finishes.
#[local] Hint Resolve emits_raise : emits.

Lemma finishes_try_except_TypeError {A} (body h1 : M A) (h2 : Exn -> M A) :
  finishes body -> finishes h1 -> (forall e, finishes (h2 e)) ->
  finishes (try_except_TypeError body h1 h2).
Proof.
  unfold finishes. intros Hb H1 H2.
  destruct body as [[a | e |] t]; simpl in *; try discriminate; try contradiction.
  specialize (H2 e). destruct (is_TypeError e).
  - destruct h1; exact H1.
  - destruct (h2 e); exact H2.
Qed.

Lemma emits_try_except_TypeError {A} Q (body h1 : M A) (h2 : Exn -> M A) :
  emits Q body -> emits Q h1 -> (forall e, emits Q (h2 e)) ->
  emits Q (try_except_TypeError body h1 h2).
Proof.
  unfold emits. intros Hb H1 H2.
  destruct body as [[a | e |] t]; simpl in *; try assumption.
  specialize (H2 e). destruct (is_TypeError e).
  - destruct h1; simpl in *. apply Forall_app; auto.
  - destruct (h2 e); simpl in *. apply Forall_app; auto.
Qed.

Lemma finishes_no_default level o : finishes (no_default level o).
Proof. destruct o; discriminate. Qed.

Lemma emits_no_default Q level o : emits Q (no_default level o).
Proof. destruct o; constructor. Qed.

Lemma finishes_iterencode indent default :
  (forall level o, finishes (default level o)) ->
  forall o level, finishes (iterencode indent default level o).
Proof.
  intros H. apply (iterencode_preserves (fun A m => finishes m)); auto with finishes.
Qed.

Lemma emits_iterencode Q indent default :
  (forall level o, emits Q (default level o)) ->
  forall o level, emits Q (iterencode indent default level o).
Proof.
  intros H. apply (iterencode_preserves (fun A m => emits Q m)); auto with emits.
Qed.

(** [json.dumps(obj)] neither prints nor reads. *)
Lemma json_dumps_silent obj : snd (json_dumps obj) = [].
Proof. apply emits_nothing. apply emits_iterencode. apply emits_no_default. Qed.

Lemma finishes_json_dumps obj : finishes (json_dumps obj).
Proof. apply finishes_iterencode. apply finishes_no_default. Qed.

Section SerializerFacts.

Variable py_str : Value -> result string.

Lemma finishes_json_serializer obj : finishes (json_serializer py_str obj).
Proof.
  unfold json_serializer.
  pose proof (finishes_json_dumps obj).
  repeat first
    [ apply finishes_bind; [| intros ? ]
    | apply finishes_try_except_TypeError; [| | intros ? ]
    | apply finishes_ret | apply finishes_raise | apply finishes_lift
    | apply finishes_emit | assumption
    | match goal with
      | |- finishes (if ?b then _ else _) => destruct b
      | |- finishes (match ?o with _ => _ end) => destruct o
      end ].
Qed.

Lemma emits_json_serializer Q obj :
  (forall s, Q (Stderr s)) -> emits Q (json_serializer py_str obj).
Proof.
  intros HQ. unfold json_serializer.
  assert (Hd : emits Q (json_dumps obj)).
  { unfold emits. rewrite json_dumps_silent. constructor. }
  repeat first
    [ apply emits_bind; [| intros ? ]
    | apply emits_try_except_TypeError; [| | intros ? ]
    | apply emits_ret | apply emits_raise | apply emits_lift
    | apply emits_emit; apply HQ | assumption
    | match goal with
      | |- emits _ (if ?b then _ else _) => destruct b
      | |- emits _ (match ?o with _ => _ end) => destruct o
      end ].
Qed.

Lemma finishes_json_dumps_document doc_data :
  finishes (json_dumps_document py_str doc_data).
Proof.
  apply finishes_iterencode. intros level o. unfold with_json_serializer.
  apply finishes_bind; [apply finishes_json_serializer |].
  intros r. apply finishes_iterencode. apply finishes_no_default.
Qed.

(** Encoding a document prints nothing on standard output and reads nothing
    from the store: its only events are warnings on the diagnostic stream. *)
Lemma emits_json_dumps_document Q doc_data :
  (forall s, Q (Stderr s)) -> emits Q (json_dumps_document py_str doc_data).
Proof.
  intros HQ. apply emits_iterencode. intros level o. unfold with_json_serializer.
  apply emits_bind; [apply emits_json_serializer; exact HQ |].
  intros r. apply emits_iterencode. apply emits_no_default.
Qed.

(** The encoder hands the hook only objects it has no rule for; the hook's
    answer for such an object is a string, or the mapping of a GeoPoint, which
    the encoder writes without any hook. *)
Lemma json_serializer_answer_plain obj r t :
  is_json_native obj = false ->
  json_serializer py_str obj = (Ret r, t) ->
  forall indent d1 d2 level,
    iterencode indent d1 level r = iterencode indent d2 level r.
Proof.
  intros Hn H indent d1 d2 level.
  destruct obj; try discriminate Hn; unfold json_serializer in H; simpl in H.
  - destruct (ToDatetime seconds nanos); simpl in H; inversion H; reflexivity.
  - discriminate H.
  - inversion H; reflexivity.
  - inversion H; reflexivity.
  - inversion H; reflexivity.
  - inversion H; reflexivity.
  - destruct (obj_eq_sentinel o); [inversion H; reflexivity |].
    simpl in H. destruct (is_TypeError (obj_dumps_exn o)).
    + destruct (py_str (VObject o)); simpl in H; inversion H; reflexivity.
    + inversion H; reflexivity.
Qed.

End SerializerFacts.

(* ===================================================================== *)
(** * The traversal: its recursive equation and its termination           *)
(* ===================================================================== *)

Section TraversalFacts.

Variable py_str : Value -> result string.
Variable db : Store.

Lemma dump_collection_body_ext f g col_ref current_depth max_depth no_limit :
  (current_depth <= max_depth ->
   forall c, f c (current_depth + 1) max_depth no_limit
             = g c (current_depth + 1) max_depth no_limit) ->
  dump_collection_body py_str db f col_ref current_depth max_depth no_limit
  = dump_collection_body py_str db g col_ref current_depth max_depth no_limit.
Proof.
  intros H. unfold dump_collection_body.
  destruct (current_depth >? max_depth) eqn:E; [reflexivity |].
  assert (Hle : current_depth <= max_depth) by lia. specialize (H Hle).
  do 3 (apply bind_ext; intros _). f_equal.
  apply bind_ext; intros query. apply bind_ext; intros docs_stream. f_equal.
  apply for_stream_ext. intros doc_snapshot.
  apply bind_ext; intros _. apply bind_ext; intros text.
  apply bind_ext; intros _. apply bind_ext; intros sub_col_list.
  destruct sub_col_list as [| c rest]; [reflexivity |].
  apply bind_ext; intros _. apply for_each_ext. intros x _. apply H.
Qed.

(** The recursive equation of the source: a call runs the body, in which the
    recursive calls are calls of [dump_collection] itself. *)
Lemma dump_collection_unfold col_ref current_depth max_depth no_limit :
  dump_collection py_str db col_ref current_depth max_depth no_limit
  = dump_collection_body py_str db (dump_collection py_str db)
      col_ref current_depth max_depth no_limit.
Proof.
  unfold dump_collection at 1. unfold call_budget. simpl.
  apply dump_collection_body_ext. intros Hle c.
  unfold dump_collection, call_budget.
  replace (Z.to_nat (max_depth + 1 - current_depth))
    with (S (Z.to_nat (max_depth + 1 - (current_depth + 1)))) by lia.
  reflexivity.
Qed.

(** Beyond the limit a call prints the notice and returns. *)
Lemma dump_collection_limit_reached col_ref current_depth max_depth no_limit :
  current_depth > max_depth ->
  dump_collection py_str db col_ref current_depth max_depth no_limit
  = (Ret tt, [Stdout (LMaxDepth current_depth max_depth (ref_id col_ref))]).
Proof.
  intros H. rewrite dump_collection_unfold. unfold dump_collection_body.
  replace (current_depth >? max_depth) with true by lia. reflexivity.
Qed.

(** Any larger budget gives the same run. *)
Lemma dump_collection_fuel_enough fuel :
  forall col_ref current_depth max_depth no_limit,
    (call_budget current_depth max_depth <= fuel)%nat ->
    dump_collection_fuel py_str db fuel col_ref current_depth max_depth no_limit
    = dump_collection py_str db col_ref current_depth max_depth no_limit.
Proof.
  induction fuel as [| fuel IH]; intros col_ref current_depth max_depth no_limit Hb.
  - unfold call_budget in Hb. lia.
  - rewrite dump_collection_unfold. simpl.
    apply dump_collection_body_ext. intros Hle c. apply IH.
    unfold call_budget in *. lia.
Qed.

(** The loop body of a document finishes when the recursive calls do. *)
Lemma finishes_body f col_ref current_depth max_depth no_limit :
  (current_depth <= max_depth ->
   forall c, finishes (f c (current_depth + 1) max_depth no_limit)) ->
  finishes (dump_collection_body py_str db f col_ref current_depth max_depth no_limit).
Proof.
  intros H. unfold dump_collection_body.
  destruct (current_depth >? max_depth) eqn:E; [discriminate |].
  assert (Hle : current_depth <= max_depth) by lia. specialize (H Hle).
  unfold print, stream, list_collections.
  repeat first
    [ apply finishes_bind; [| intros ? ]
    | apply finishes_try_except; [| intros ? ]
    | apply finishes_for_stream; intros ?
    | apply finishes_for_each; intros ?
    | apply finishes_json_dumps_document
    | apply finishes_ret | apply finishes_lift | apply finishes_emit
    | apply H
    | match goal with
      | |- finishes (if ?b then _ else _) => destruct b
      | |- finishes (match ?o with _ => _ end) => destruct o
      end ].
Qed.

(** The body never lets an exception out: whatever is raised inside the
    [try] is caught by the handler, which only prints. *)
Lemma dump_collection_body_returns f col_ref current_depth max_depth no_limit :
  (current_depth <= max_depth ->
   forall c, finishes (f c (current_depth + 1) max_depth no_limit)) ->
  fst (dump_collection_body py_str db f col_ref current_depth max_depth no_limit)
  = Ret tt.
Proof.
  intros H. pose proof (finishes_body f col_ref current_depth max_depth no_limit H) as Hf.
  unfold finishes in Hf. revert Hf. unfold dump_collection_body.
  destruct (current_depth >? max_depth) eqn:E; [reflexivity |].
  rewrite !bind_fst. simpl. rewrite try_except_fst.
  match goal with |- context [match fst ?m with _ => _ end] => destruct (fst m) as [[] | e |] end;
    simpl; intros Hf; congruence.
Qed.

Lemma dump_collection_returns_at n :
  forall col_ref current_depth max_depth no_limit,
    Z.to_nat (max_depth + 1 - current_depth) = n ->
    fst (dump_collection py_str db col_ref current_depth max_depth no_limit) = Ret tt.
Proof.
  induction n as [| n IH]; intros col_ref current_depth max_depth no_limit Hn;
    rewrite dump_collection_unfold; apply dump_collection_body_returns; intros Hle c.
  - lia.
  - unfold finishes. rewrite (IH c); [discriminate | lia].
Qed.

(** A call of [dump_collection] always returns normally. *)
Lemma dump_collection_returns col_ref current_depth max_depth no_limit :
  fst (dump_collection py_str db col_ref current_depth max_depth no_limit) = Ret tt.
Proof. now apply (dump_collection_returns_at _ _ _ _ _ eq_refl). Qed.

(** A visited collection, step by step: the prologue, the loop over the
    fetched stream, and the epilogue the end of the loop calls for. *)
Lemma dump_collection_body_run f col_ref current_depth max_depth no_limit :
  current_depth <= max_depth ->
  dump_collection_body py_str db f col_ref current_depth max_depth no_limit
  = let loop := for_stream (stream_of db (query_for col_ref no_limit)) 0
                  (visit_document py_str db f current_depth max_depth no_limit) in
    (match fst loop with Exhausted => Exhausted | _ => Ret tt end,
     (collection_prologue col_ref current_depth no_limit
        ++ snd loop ++ collection_epilogue col_ref current_depth (fst loop))%list).
Proof.
  intros Hle.
  change (dump_collection_body py_str db f col_ref current_depth max_depth no_limit)
    with (if current_depth >? max_depth then
            print (LMaxDepth current_depth max_depth (ref_id col_ref))
          else
            print (LRuleTop current_depth) ;;
            print (LProcessing current_depth (ref_id col_ref)) ;;
            print (LRule current_depth) ;;
            try_except
              (query <- (if no_limit then
                           print (LFetchingAll current_depth (ref_id col_ref)) ;;
                           ret (mkQuery col_ref None)
                         else
                           print (LFetchingUpTo current_depth 5 (ref_id col_ref)) ;;
                           ret (mkQuery col_ref (Some 5))) ;;
               docs_stream <- stream db query ;;
               doc_count <- for_stream docs_stream 0
                              (visit_document py_str db f current_depth max_depth no_limit) ;;
               if doc_count =? 0
               then print (LEmpty (current_depth + 1) (ref_id col_ref))
               else ret tt)
              (fun e =>
                 print (LErrorWarning (ref_id col_ref)) ;;
                 print (LErrorDetails current_depth (exn_msg e)))).
  replace (current_depth >? max_depth) with false by lia.
  unfold query_for.
  destruct no_limit;
    cbn -[for_stream stream_of visit_document Z.eqb Z.add];
    match goal with
    | |- context [for_stream ?s ?n ?b] => destruct (for_stream s n b) as [[k | e |] t]
    end; simpl;
    try match goal with |- context [?n =? 0] => destruct (n =? 0) end;
    simpl; rewrite ?app_nil_r; reflexivity.
Qed.

Lemma dump_collection_run col_ref current_depth max_depth no_limit :
  current_depth <= max_depth ->
  dump_collection py_str db col_ref current_depth max_depth no_limit
  = let loop := for_stream (stream_of db (query_for col_ref no_limit)) 0
                  (visit_document py_str db (dump_collection py_str db)
                     current_depth max_depth no_limit) in
    (match fst loop with Exhausted => Exhausted | _ => Ret tt end,
     (collection_prologue col_ref current_depth no_limit
        ++ snd loop ++ collection_epilogue col_ref current_depth (fst loop))%list).
Proof.
  intros Hle. rewrite dump_collection_unfold. now apply dump_collection_body_run.
Qed.

(** Induction along the recursion of [dump_collection]: a property of calls
    that the body carries from the recursive calls to the call itself holds
    of every call. *)
Lemma dump_collection_induction (P : ColRef -> Z -> M unit -> Prop) max_depth no_limit :
  (forall f col_ref current_depth,
      (current_depth <= max_depth ->
       forall c, P c (current_depth + 1) (f c (current_depth + 1) max_depth no_limit)) ->
      P col_ref current_depth
        (dump_collection_body py_str db f col_ref current_depth max_depth no_limit)) ->
  forall col_ref current_depth,
    P col_ref current_depth
      (dump_collection py_str db col_ref current_depth max_depth no_limit).
Proof.
  intros Hbody col_ref current_depth.
  remember (Z.to_nat (max_depth + 1 - current_depth)) as n eqn:Hn.
  revert col_ref current_depth Hn.
  induction n as [| n IH]; intros col_ref current_depth Hn;
    rewrite dump_collection_unfold; apply Hbody; intros Hle c.
  - lia.
  - apply IH. lia.
Qed.

(** A loop over collections runs every one of them, each as it runs on its
    own, whatever happened in the ones before. *)
Lemma for_each_dump_collection cols current_depth max_depth no_limit :
  for_each cols (fun c => dump_collection py_str db c current_depth max_depth no_limit)
  = (Ret tt,
     flat_map (fun c => snd (dump_collection py_str db c current_depth max_depth no_limit))
              cols).
Proof.
  induction cols as [| c rest IH]; simpl; [reflexivity |].
  rewrite IH.
  pose proof (dump_collection_returns c current_depth max_depth no_limit) as Hc.
  destruct (dump_collection py_str db c current_depth max_depth no_limit) as [r t].
  simpl in *. subst r. reflexivity.
Qed.

End TraversalFacts.

(* ===================================================================== *)
(** * The depth limit, empty collections and termination                  *)
(* ===================================================================== *)

Section DepthLimit.

Variable py_str : Value -> result string.

(** C5: a call with [current_depth > max_depth] prints the depth-limit notice
    and returns; it issues no read to the store, so no document of the
    collection is fetched or printed and no descendant is visited, whatever
    the store holds below. *)
Theorem dump_collection_beyond_max_depth db col_ref current_depth max_depth no_limit :
  current_depth > max_depth ->
  dump_collection py_str db col_ref current_depth max_depth no_limit
  = (Ret tt, [Stdout (LMaxDepth current_depth max_depth (ref_id col_ref))])
  /\ requests_of
       (snd (dump_collection py_str db col_ref current_depth max_depth no_limit)) = []
  /\ stdout_of
       (snd (dump_collection py_str db col_ref current_depth max_depth no_limit))
     = [LMaxDepth current_depth max_depth (ref_id col_ref)].
Proof.
  intros H. rewrite dump_collection_limit_reached by exact H. repeat split.
Qed.

(** C8: a visited collection whose fetch yields no document gets the banner,
    the fetch line and then the notice that it is empty, naming it; no
    document header is printed. *)
Theorem empty_collection_notice db col_ref current_depth max_depth no_limit :
  current_depth <= max_depth ->
  stream_of db (query_for col_ref no_limit) = SEnd ->
  dump_collection py_str db col_ref current_depth max_depth no_limit
  = (Ret tt,
     [Stdout (LRuleTop current_depth);
      Stdout (LProcessing current_depth (ref_id col_ref));
      Stdout (LRule current_depth);
      Stdout (if no_limit then LFetchingAll current_depth (ref_id col_ref)
              else LFetchingUpTo current_depth 5 (ref_id col_ref));
      Request (RStream col_ref (if no_limit then None else Some 5));
      Stdout (LEmpty (current_depth + 1) (ref_id col_ref))]).
Proof.
  intros Hle Hs. rewrite dump_collection_unfold. unfold dump_collection_body.
  replace (current_depth >? max_depth) with false by lia.
  unfold query_for in Hs. destruct no_limit; simpl; unfold stream_of in *;
    simpl in *; rewrite Hs; reflexivity.
Qed.

End DepthLimit.
Lemma dump_collection_beyond_max_depth_witness :
  dump_collection sample_str sample_db ["users"] 1 0 false
  = (Ret tt, [Stdout (LMaxDepth 1 0 "users")]).
Proof.
  apply (dump_collection_beyond_max_depth sample_str sample_db ["users"] 1 0 false).
  reflexivity.
Defined.
Lemma empty_collection_notice_witness :
  dump_collection sample_str sample_db ["users"; "a"; "likes"] 1 10 false
  = (Ret tt,
     [Stdout (LRuleTop 1); Stdout (LProcessing 1 "likes"); Stdout (LRule 1);
      Stdout (LFetchingUpTo 1 5 "likes");
      Request (RStream ["users"; "a"; "likes"] (Some 5));
      Stdout (LEmpty 2 "likes")]).
Proof.
  apply (empty_collection_notice sample_str sample_db ["users"; "a"; "likes"] 1 10 false).
  - discriminate.
  - reflexivity.
Defined.

Section NegativeMaxDepth.

Variable py_str : Value -> result string.

Lemma root_loop_only_notices db cols max_depth no_limit :
  max_depth < 0 ->
  for_each cols (fun c => dump_collection py_str db c 0 max_depth no_limit)
  = (Ret tt, map (fun c => Stdout (LMaxDepth 0 max_depth (ref_id c))) cols).
Proof.
  intros H. induction cols as [| c rest IH]; simpl; [reflexivity |].
  rewrite IH, dump_collection_limit_reached by lia. reflexivity.
Qed.

Lemma emits_dump_top_level_negative args db actual_project_id :
  arg_max_depth args < 0 ->
  emits (only_notices (arg_max_depth args))
        (dump_top_level py_str args db actual_project_id).
Proof.
  intros H. unfold dump_top_level, print.
  apply emits_bind; [now apply emits_emit |]. intros _.
  apply emits_bind.
  { apply emits_bind; [now apply emits_emit | intros _; apply emits_lift]. }
  intros cols. destruct cols as [| c rest].
  - repeat (apply emits_bind; [now apply emits_emit | intros _]). apply emits_ret.
  - repeat (apply emits_bind; [now apply emits_emit | intros _]).
    apply emits_bind.
    + rewrite root_loop_only_notices by exact H.
      unfold emits. cbn [snd]. apply Forall_forall. intros ev Hev.
      apply in_map_iff in Hev. destruct Hev as [x [<- _]]. simpl. auto.
    + intros _. repeat (apply emits_bind; [now apply emits_emit | intros _]).
      apply emits_ret.
Qed.

(** C10: with a negative [--max-depth] every root collection is entered at
    depth 0, beyond the limit: the loop prints one depth-limit notice per root
    collection and nothing else; over the whole run the only read issued to
    the store is the listing of the root collections, and no banner, document
    header or document content is printed. *)
Theorem negative_max_depth_only_notices args :
  arg_max_depth args < 0 ->
  (forall db actual_project_id c rest,
      root_collections db = Ok (c :: rest) ->
      dump_top_level py_str args db actual_project_id
      = (Ret 0,
         [Stdout (LText (newline ++ "Fetching top-level collections..."));
          Request RRootCollections;
          Stdout (LText ("Found " ++ str_int (Z.of_nat (List.length (c :: rest)))
                           ++ " top-level collections."));
          Stdout (LText (newline ++ "Fetching data recursively (this may take time and incur read costs)..."))]
         ++ map (fun c => Stdout (LMaxDepth 0 (arg_max_depth args) (ref_id c))) (c :: rest)
         ++ [Stdout (LText (newline ++ "-----------------------------------------"));
             Stdout (LText ("--- End of Firestore Data Dump ("
                              ++ str_option actual_project_id ++ ") ---"))])%list)
  /\ (forall env, emits (only_notices (arg_max_depth args)) (main py_str env args)).
Proof.
  intros H. split.
  - intros db pid c rest Hroot. unfold dump_top_level. rewrite Hroot.
    cbn -[for_each dump_collection str_int List.length map newline String.append].
    rewrite root_loop_only_notices by exact H.
    cbn -[str_int List.length map newline String.append].
    reflexivity.
  - intros env. unfold main, print.
    destruct (negb (path_exists env (arg_key_file args))).
    { apply emits_bind; [now apply emits_emit | intros _; apply emits_ret]. }
    apply emits_bind; [now apply emits_emit | intros _].
    apply emits_bind.
    + apply emits_try_except.
      * apply emits_bind; [| intros; apply emits_ret].
        unfold init_firebase, print.
        repeat first
          [ apply emits_bind; [| intros ? ]
          | apply emits_ret | apply emits_lift
          | apply emits_emit; exact I
          | match goal with
            | |- emits _ (if ?b then _ else _) => destruct b
            | |- emits _ (match ?o with _ => _ end) => destruct o
            end ].
      * intros e. repeat (apply emits_bind; [now apply emits_emit | intros _]).
        apply emits_ret.
    + intros [[[app db] pid] |]; [| apply emits_ret].
      apply emits_try_except.
      * now apply emits_dump_top_level_negative.
      * intros e. apply emits_bind; [now apply emits_emit | intros _; apply emits_ret].
Qed.

End NegativeMaxDepth.

Lemma negative_max_depth_only_notices_witness :
  dump_top_level sample_str (mkArgs "key.json" None (-1) false) sample_db (Some "key-project")
  = (Ret 0,
     [Stdout (LText (newline ++ "Fetching top-level collections..."));
      Request RRootCollections;
      Stdout (LText "Found 1 top-level collections.");
      Stdout (LText (newline ++ "Fetching data recursively (this may take time and incur read costs)..."));
      Stdout (LMaxDepth 0 (-1) "users");
      Stdout (LText (newline ++ "-----------------------------------------"));
      Stdout (LText "--- End of Firestore Data Dump (key-project) ---")]).
Proof.
  refine (proj1 (negative_max_depth_only_notices sample_str
                   (mkArgs "key.json" None (-1) false) _)
                sample_db (Some "key-project") ["users"] [] eq_refl).
  reflexivity.
Defined.

Section Termination.

Variable py_str : Value -> result string.
Variable db : Store.

Lemma emits_body_depths f col_ref current_depth max_depth no_limit :
  (current_depth <= max_depth ->
   forall c, emits (within_depths (current_depth + 1) (max_depth + 1))
                   (f c (current_depth + 1) max_depth no_limit)) ->
  emits (within_depths current_depth (Z.max current_depth (max_depth + 1)))
        (dump_collection_body py_str db f col_ref current_depth max_depth no_limit).
Proof.
  intros H. unfold dump_collection_body.
  destruct (current_depth >? max_depth) eqn:E.
  { apply emits_emit. simpl. lia. }
  assert (Hle : current_depth <= max_depth) by lia. specialize (H Hle).
  unfold print, stream, list_collections.
  repeat first
    [ apply emits_bind; [| intros ? ]
    | apply emits_try_except; [| intros ? ]
    | apply emits_for_stream; intros ?
    | apply emits_for_each; intros ?
    | apply emits_json_dumps_document; intros; exact I
    | apply emits_ret | apply emits_lift
    | apply emits_emit; simpl; solve [ exact I | lia ]
    | eapply emits_weaken; [| apply H ];
      intros [[] | |]; simpl; solve [ trivial | lia ]
    | match goal with
      | |- emits _ (if ?b then _ else _) => destruct b
      | |- emits _ (match ?o with _ => _ end) => destruct o
      end ].
Qed.

Lemma dump_collection_depths_at n :
  forall col_ref current_depth max_depth no_limit,
    Z.to_nat (max_depth + 1 - current_depth) = n ->
    emits (within_depths current_depth (Z.max current_depth (max_depth + 1)))
          (dump_collection py_str db col_ref current_depth max_depth no_limit).
Proof.
  induction n as [| n IH]; intros col_ref current_depth max_depth no_limit Hn;
    rewrite dump_collection_unfold; apply emits_body_depths; intros Hle c.
  - lia.
  - replace (max_depth + 1) with (Z.max (current_depth + 1) (max_depth + 1)) by lia.
    apply IH. lia.
Qed.

Lemma dump_collection_depths col_ref current_depth max_depth no_limit :
  emits (within_depths current_depth (Z.max current_depth (max_depth + 1)))
        (dump_collection py_str db col_ref current_depth max_depth no_limit).
Proof. now apply (dump_collection_depths_at _ _ _ _ _ eq_refl). Qed.

Lemma call_depths_within lo hi (t : Trace) :
  Forall (within_depths lo hi) t -> Forall (fun k => lo <= k <= hi) (call_depths t).
Proof.
  induction 1 as [| ev t Hev _ IH]; simpl; [constructor |].
  destruct ev as [[] | |]; simpl in *; auto.
Qed.

(** C9: [dump_collection] terminates on every store (a stream is finite and a
    document has finitely many subcollections, however deep the store): a
    budget of [max_depth + 1 - current_depth] nested calls, plus the one that
    hits the limit, is enough for the call to return, and any larger budget
    gives the same run.  Every call made during the run has a depth between
    the starting depth and [max_depth + 1]. *)
Theorem dump_collection_terminates col_ref current_depth max_depth no_limit :
  (exists t,
      forall fuel,
        (S (Z.to_nat (max_depth + 1 - current_depth)) <= fuel)%nat ->
        dump_collection_fuel py_str db fuel col_ref current_depth max_depth no_limit
        = (Ret tt, t))
  /\ Forall (fun k => current_depth <= k <= Z.max current_depth (max_depth + 1))
            (call_depths
               (snd (dump_collection py_str db col_ref current_depth max_depth no_limit))).
Proof.
  split.
  - exists (snd (dump_collection py_str db col_ref current_depth max_depth no_limit)).
    intros fuel Hf. rewrite dump_collection_fuel_enough by exact Hf.
    pose proof (dump_collection_returns py_str db col_ref current_depth max_depth no_limit).
    destruct (dump_collection py_str db col_ref current_depth max_depth no_limit).
    simpl in *. now subst.
  - apply call_depths_within. apply dump_collection_depths.
Qed.

End Termination.

(** On the endless store the walk stops at the depth limit: a run from depth
    0 with [max_depth = 2] makes calls at depths 0, 1, 2 and 3. *)
Example endless_db_run :
  fst (dump_collection sample_str endless_db ["root"] 0 2 false) = Ret tt
  /\ call_depths (snd (dump_collection sample_str endless_db ["root"] 0 2 false))
     = [0; 1; 2; 3].
Proof. split; reflexivity. Qed.

(* ===================================================================== *)
(** * The fetch limit                                                     *)
(* ===================================================================== *)

Lemma document_headers_app depth (t1 t2 : Trace) :
  document_headers depth (t1 ++ t2)%list
  = (document_headers depth t1 ++ document_headers depth t2)%list.
Proof. unfold document_headers. apply flat_map_app. Qed.

Lemma visits_bind {A B} depth a b (m : M A) (f : A -> M B) :
  visits_at_most depth a m -> (forall x, visits_at_most depth b (f x)) ->
  visits_at_most depth (a + b) (bind m f).
Proof.
  unfold visits_at_most. intros Hm Hf.
  rewrite bind_snd, document_headers_app, length_app.
  destruct (fst m) as [x | e |]; [specialize (Hf x) | |]; simpl; lia.
Qed.

Lemma visits_try_except {A} depth a b (m : M A) (h : Exn -> M A) :
  visits_at_most depth a m -> (forall e, visits_at_most depth b (h e)) ->
  visits_at_most depth (a + b) (try_except m h).
Proof.
  unfold visits_at_most. intros Hm Hh.
  rewrite try_except_snd, document_headers_app, length_app.
  destruct (fst m) as [x | e |]; [| specialize (Hh e) |]; simpl; lia.
Qed.

Lemma visits_mono {A} depth a b (m : M A) :
  visits_at_most depth a m -> (a <= b)%nat -> visits_at_most depth b m.
Proof. unfold visits_at_most. lia. Qed.

(** Events none of which is a document header at [depth]. *)
Lemma visits_none {A} depth (Q : Event -> Prop) (m : M A) :
  (forall ev, Q ev -> document_headers depth [ev] = []) ->
  emits Q m -> visits_at_most depth 0 m.
Proof.
  unfold visits_at_most, emits. intros HQ H.
  induction H as [| ev t Hev _ IH]; [simpl; lia |].
  change (ev :: t) with ([ev] ++ t)%list.
  rewrite document_headers_app, length_app, (HQ ev Hev). exact IH.
Qed.

Lemma visits_for_stream depth s n body :
  (forall d, visits_at_most depth 1 (body d)) ->
  visits_at_most depth (stream_length s) (for_stream s n body).
Proof.
  intros H. revert n. induction s as [| e | d rest IH]; intros n; simpl;
    try (unfold visits_at_most; simpl; lia).
  change (S (stream_length rest)) with (1 + stream_length rest)%nat.
  apply visits_bind; auto.
Qed.

Lemma stream_length_take n s : (stream_length (take_stream n s) <= n)%nat.
Proof.
  revert s. induction n as [| n IH]; intros s; simpl; [lia |].
  destruct s; simpl; try lia. specialize (IH s). lia.
Qed.

Lemma deeper_headers_only current_depth hi ev :
  within_depths (current_depth + 1) hi ev ->
  document_headers (current_depth + 1) [ev] = [].
Proof.
  destruct ev as [[] | |]; simpl; try reflexivity.
  intros H. replace (depth =? current_depth + 1) with false by lia. reflexivity.
Qed.


Section FetchLimit.

Variable py_str : Value -> result string.
Variable db : Store.

(** Visiting a document prints one header at the depth of the documents of
    its collection; whatever lies below prints deeper ones. *)
Lemma visit_document_one_header current_depth max_depth no_limit doc_snapshot :
  visits_at_most (current_depth + 1) 1
    (visit_document py_str db (dump_collection py_str db)
       current_depth max_depth no_limit doc_snapshot).
Proof.
  unfold visit_document, print.
  apply visits_bind with (a := 1%nat) (b := 0%nat).
  { unfold visits_at_most. simpl. rewrite Z.eqb_refl. simpl. lia. }
  intros _.
  apply visits_none with (Q := within_depths (current_depth + 1)
                                 (Z.max (current_depth + 1) (max_depth + 1))).
  { intros ev. apply deeper_headers_only. }
  unfold list_collections.
  repeat first
    [ apply emits_bind; [| intros ? ]
    | apply emits_for_each; intros ?
    | apply emits_json_dumps_document; intros; exact I
    | apply emits_ret | apply emits_lift
    | apply emits_emit; exact I
    | apply dump_collection_depths
    | match goal with
      | |- emits _ (match ?o with _ => _ end) => destruct o
      end ].
Qed.

(** The documents visited in a collection are at most those of the stream
    fetched for it. *)
Lemma visits_within_stream col_ref current_depth max_depth no_limit :
  visits_at_most (current_depth + 1)
    (stream_length (stream_of db (query_for col_ref no_limit)))
    (dump_collection py_str db col_ref current_depth max_depth no_limit).
Proof.
  destruct (Z_le_gt_dec current_depth max_depth) as [Hle | Hgt].
  - rewrite dump_collection_run by exact Hle.
    pose proof (visits_for_stream (current_depth + 1)
                  (stream_of db (query_for col_ref no_limit)) 0
                  (visit_document py_str db (dump_collection py_str db)
                     current_depth max_depth no_limit)
                  (visit_document_one_header current_depth max_depth no_limit)) as H.
    unfold visits_at_most in *. cbn [snd].
    rewrite !document_headers_app, !length_app.
    replace (List.length (document_headers (current_depth + 1)
                            (collection_prologue col_ref current_depth no_limit)))
      with 0%nat by (destruct no_limit; reflexivity).
    match goal with
    | |- context [collection_epilogue ?c ?d ?o] =>
        replace (List.length (document_headers (current_depth + 1)
                                (collection_epilogue c d o))) with 0%nat
    end.
    + lia.
    + destruct (fst (for_stream _ _ _)) as [k | e |]; simpl; try reflexivity.
      destruct (k =? 0); reflexivity.
  - rewrite dump_collection_limit_reached by exact Hgt.
    unfold visits_at_most. simpl. lia.
Qed.

Lemma emits_body_fetches f col_ref current_depth max_depth (no_limit : bool) :
  (current_depth <= max_depth ->
   forall c, emits (fetches_with (if no_limit then @None Z else Some 5))
                   (f c (current_depth + 1) max_depth no_limit)) ->
  emits (fetches_with (if no_limit then @None Z else Some 5))
        (dump_collection_body py_str db f col_ref current_depth max_depth no_limit).
Proof.
  intros H.
  destruct (Z_le_gt_dec current_depth max_depth) as [Hle | Hgt].
  - specialize (H Hle). rewrite dump_collection_body_run by exact Hle.
    unfold emits. cbn [snd]. rewrite !Forall_app. repeat split.
    + destruct no_limit; repeat constructor.
    + apply emits_for_stream. intros doc_snapshot.
      unfold visit_document, print, list_collections.
      repeat first
        [ apply emits_bind; [| intros ? ]
        | apply emits_for_each; intros ?
        | apply emits_json_dumps_document; intros; exact I
        | apply emits_ret | apply emits_lift
        | apply emits_emit; exact I
        | apply H
        | match goal with
          | |- emits _ (match ?o with _ => _ end) => destruct o
          end ].
    + destruct (fst (for_stream _ _ _)) as [k | e |]; simpl; repeat constructor.
      destruct (k =? 0); repeat constructor.
  - unfold dump_collection_body.
    replace (current_depth >? max_depth) with true by lia.
    now apply emits_emit.
Qed.

Lemma visit_numbered_doc n f current_depth max_depth no_limit doc_ref :
  visit_document py_str (wide_db n) f current_depth max_depth no_limit
    (mkSnapshot doc_ref (VDict []))
  = (Ret tt,
     [Stdout (LDocument (current_depth + 1) (ref_id doc_ref));
      Stdout (LJson "{}");
      Request (RCollections doc_ref)]).
Proof. reflexivity. Qed.

Lemma wide_db_loop n f current_depth max_depth no_limit col :
  forall count from k,
    let run := for_stream (numbered_docs col from count) k
                 (visit_document py_str (wide_db n) f current_depth max_depth no_limit) in
    fst run = Ret (k + Z.of_nat count)
    /\ List.length (document_headers (current_depth + 1) (snd run)) = count.
Proof.
  induction count as [| count IH]; intros from k; cbn zeta.
  - simpl. split; [f_equal; lia | reflexivity].
  - cbn [numbered_docs for_stream]. rewrite visit_numbered_doc.
    specialize (IH (from + 1) (k + 1)). cbn zeta in IH. destruct IH as [IH1 IH2].
    erewrite bind_run by reflexivity. cbn [fst snd]. split.
    + rewrite IH1. f_equal. lia.
    + change (?a :: ?b :: ?c :: ?t)%list with ([a; b; c] ++ t)%list.
      rewrite document_headers_app, length_app, IH2.
      simpl. rewrite Z.eqb_refl. reflexivity.
Qed.

(** C6: without [--no-limit] at most 5 documents are visited in a collection,
    however many the store holds, and every fetch of the run asks for at most
    5; with the flag no fetch carries a limit, and a collection of [n]
    documents has all [n] visited, for any [n]. *)
Theorem fetch_limit col_ref current_depth max_depth :
  visits_at_most (current_depth + 1) 5
    (dump_collection py_str db col_ref current_depth max_depth false)
  /\ emits (fetches_with (Some 5))
           (dump_collection py_str db col_ref current_depth max_depth false)
  /\ emits (fetches_with None)
           (dump_collection py_str db col_ref current_depth max_depth true)
  /\ forall n,
       List.length (document_headers 1
                      (snd (dump_collection py_str (wide_db n) ["c"] 0 10 true)))
       = n.
Proof.
  repeat split.
  - eapply visits_mono; [apply visits_within_stream |].
    unfold stream_of, query_for. simpl. apply (stream_length_take 5).
  - apply (dump_collection_induction py_str db
             (fun _ _ m => emits (fetches_with (Some 5)) m) max_depth false).
    intros f c d Hf. now apply (emits_body_fetches f c d max_depth false).
  - apply (dump_collection_induction py_str db
             (fun _ _ m => emits (fetches_with None) m) max_depth true).
    intros f c d Hf. now apply (emits_body_fetches f c d max_depth true).
  - intros n. rewrite dump_collection_run by lia.
    destruct (wide_db_loop n (dump_collection py_str (wide_db n)) 0 10 true ["c"] n 0 0)
      as [_ H].
    cbn zeta in *. cbn [snd].
    rewrite !document_headers_app, !length_app.
    change (stream_of (wide_db n) (query_for ["c"] true)) with (numbered_docs ["c"] 0 n).
    change (0 + 1) with 1 in H. rewrite H.
    replace (List.length (document_headers 1 (collection_prologue ["c"] 0 true)))
      with 0%nat by reflexivity.
    match goal with
    | |- context [collection_epilogue ?c ?d ?o] =>
        replace (List.length (document_headers 1 (collection_epilogue c d o))) with 0%nat
    end.
    + lia.
    + destruct (fst (for_stream _ _ _)) as [k | e |]; simpl; try reflexivity.
      destruct (k =? 0); reflexivity.
Qed.

End FetchLimit.

(** Seven documents in the store: five visited under the default limit, all
    seven with [--no-limit]. *)
Example seven_documents :
  document_headers 1 (snd (dump_collection sample_str (wide_db 7) ["c"] 0 10 false))
  = ["0"; "1"; "2"; "3"; "4"]
  /\ document_headers 1 (snd (dump_collection sample_str (wide_db 7) ["c"] 0 10 true))
     = ["0"; "1"; "2"; "3"; "4"; "5"; "6"].
Proof. split; reflexivity. Qed.

(* ===================================================================== *)
(** * Errors of a collection                                              *)
(* ===================================================================== *)

Section CollectionErrors.

Variable py_str : Value -> result string.
Variable db : Store.

Lemma finishes_visit_document current_depth max_depth no_limit doc_snapshot :
  finishes (visit_document py_str db (dump_collection py_str db)
              current_depth max_depth no_limit doc_snapshot).
Proof.
  unfold visit_document, print, list_collections.
  repeat first
    [ apply finishes_bind; [| intros ? ]
    | apply finishes_for_each; intros ?
    | apply finishes_json_dumps_document
    | apply finishes_ret | apply finishes_lift | apply finishes_emit
    | match goal with
      | |- finishes (match ?o with _ => _ end) => destruct o
      end ].
  all: unfold finishes; rewrite dump_collection_returns; discriminate.
Qed.

(** A stream that ends in a failure makes the loop raise: the failure of the
    stream, or an error met earlier while visiting a document. *)
Lemma for_stream_failure s body :
  ends_in_failure s = true -> (forall d, finishes (body d)) ->
  forall k, exists e, fst (for_stream s k body) = Raise e.
Proof.
  intros Hs Hb. induction s as [| e | d rest IH]; intros k; simpl in *.
  - discriminate.
  - now exists e.
  - rewrite bind_fst. specialize (Hb d). unfold finishes in Hb.
    destruct (fst (body d)) as [[] | e |].
    + apply IH. exact Hs.
    + now exists e.
    + contradiction.
Qed.

(** The loop goes through the snapshots a stream yields, as long as the
    visits return, and carries on with what follows them in the stream. *)
Lemma for_stream_yield_all docs tail body :
  (forall d, In d docs -> fst (body d) = Ret tt) ->
  forall k,
    for_stream (yield_all docs tail) k body
    = (fst (for_stream tail (k + Z.of_nat (List.length docs)) body),
       (flat_map (fun d => snd (body d)) docs
          ++ snd (for_stream tail (k + Z.of_nat (List.length docs)) body))%list).
Proof.
  induction docs as [| d rest IH]; intros Hb k.
  - cbn [yield_all List.length flat_map app Z.of_nat]. rewrite Z.add_0_r.
    destruct (for_stream tail k body); reflexivity.
  - cbn [yield_all for_stream flat_map].
    rewrite IH by (intros d' Hd'; apply Hb; now right).
    pose proof (Hb d (or_introl eq_refl)) as Hd.
    destruct (body d) as [o t]. cbn [fst] in Hd. subst o.
    cbn [bind snd].
    replace (k + 1 + Z.of_nat (List.length rest))
      with (k + Z.of_nat (List.length (d :: rest)))
      by (cbn [List.length]; lia).
    rewrite app_assoc. reflexivity.
Qed.

(** The visit of a document whose content is printed and whose
    subcollections are listed: every subcollection is run, in full. *)
Lemma visit_document_listed current_depth max_depth no_limit doc_snapshot text t subs :
  json_dumps_document py_str (to_dict doc_snapshot) = (Ret text, t) ->
  collections db (reference doc_snapshot) = Ok subs ->
  visit_document py_str db (dump_collection py_str db)
    current_depth max_depth no_limit doc_snapshot
  = (Ret tt,
     (Stdout (LDocument (current_depth + 1) (ref_id (reference doc_snapshot)))
      :: t
      ++ Stdout (LJson text)
      :: Request (RCollections (reference doc_snapshot))
      :: match subs with
         | [] => []
         | _ =>
             Stdout (LCheckingSub (current_depth + 1) (ref_id (reference doc_snapshot)))
             :: runs py_str db (current_depth + 1) max_depth no_limit subs
         end)%list).
Proof.
  intros Hjson Hsubs. unfold visit_document, list_collections, runs. cbv zeta.
  rewrite Hjson, Hsubs.
  destruct subs as [| c rest]; [reflexivity |].
  cbn -[for_each dump_collection flat_map].
  rewrite for_each_dump_collection. reflexivity.
Qed.

Lemma visitable_returns current_depth max_depth no_limit docs :
  Forall (visitable py_str db) docs ->
  forall d, In d docs ->
    fst (visit_document py_str db (dump_collection py_str db)
           current_depth max_depth no_limit d) = Ret tt.
Proof.
  intros Hall d Hd. rewrite Forall_forall in Hall.
  destruct (Hall d Hd) as [[text [t Hjson]] [subs Hsubs]].
  now rewrite (visit_document_listed _ _ _ _ _ _ _ Hjson Hsubs).
Qed.

(** The run of a call whose stream is known up to some point. *)
Lemma dump_collection_through col_ref current_depth max_depth no_limit docs tail :
  current_depth <= max_depth ->
  stream_of db (query_for col_ref no_limit) = yield_all docs tail ->
  Forall (visitable py_str db) docs ->
  dump_collection py_str db col_ref current_depth max_depth no_limit
  = let loop := for_stream tail (Z.of_nat (List.length docs))
                  (visit_document py_str db (dump_collection py_str db)
                     current_depth max_depth no_limit) in
    (match fst loop with Exhausted => Exhausted | _ => Ret tt end,
     (collection_prologue col_ref current_depth no_limit
        ++ visits py_str db current_depth max_depth no_limit docs
        ++ snd loop
        ++ collection_epilogue col_ref current_depth (fst loop))%list).
Proof.
  intros Hle Hs Hall. rewrite dump_collection_run by exact Hle. rewrite Hs.
  rewrite for_stream_yield_all
    by (apply visitable_returns; exact Hall).
  cbv zeta. cbn [fst snd]. rewrite Z.add_0_l. unfold visits.
  rewrite <- !app_assoc. reflexivity.
Qed.

(** The run of a call whose fetch raises. *)
Lemma dump_collection_fetch_fails col_ref current_depth max_depth no_limit e :
  current_depth <= max_depth ->
  stream_of db (query_for col_ref no_limit) = SFail e ->
  dump_collection py_str db col_ref current_depth max_depth no_limit
  = (Ret tt,
     (collection_prologue col_ref current_depth no_limit
        ++ [Stdout (LErrorWarning (ref_id col_ref));
            Stdout (LErrorDetails current_depth (exn_msg e))])%list).
Proof.
  intros Hle Hs.
  rewrite (dump_collection_through col_ref current_depth max_depth no_limit
             [] (SFail e) Hle Hs (Forall_nil _)).
  reflexivity.
Qed.

(** C7: an error while fetching or iterating a collection stays within the
    call for that collection, which prints the warning naming the collection
    and the error and returns.  For a call within the depth limit:
    - when the stream raises after it has yielded [docs] (none of them when
      the fetch itself raises), the call visits every one of [docs], prints
      the warning and returns;
    - when the visit of a document raises, after the visits of [docs], the
      call prints what that visit printed and the warning, visits no further
      document and returns;
    - the visit of a document runs every subcollection of the document in
      full and returns, whatever happened in them;
    - in particular, when the fetch of subcollection [c] raises, the
      subcollections listed before [c] are run, then [c] prints its banner
      and its warning, then those listed after [c] are run;
    - when the stream ends, every document it yielded has been visited,
      whatever happened in the subcollections of the others. *)
Theorem collection_errors_are_contained col_ref current_depth max_depth no_limit :
  current_depth <= max_depth ->
  (forall docs e,
      stream_of db (query_for col_ref no_limit) = yield_all docs (SFail e) ->
      Forall (visitable py_str db) docs ->
      dump_collection py_str db col_ref current_depth max_depth no_limit
      = (Ret tt,
         (collection_prologue col_ref current_depth no_limit
            ++ visits py_str db current_depth max_depth no_limit docs
            ++ [Stdout (LErrorWarning (ref_id col_ref));
                Stdout (LErrorDetails current_depth (exn_msg e))])%list))
  /\ (forall docs doc_snapshot rest e,
         stream_of db (query_for col_ref no_limit)
         = yield_all docs (SYield doc_snapshot rest) ->
         Forall (visitable py_str db) docs ->
         fst (visit_document py_str db (dump_collection py_str db)
                current_depth max_depth no_limit doc_snapshot) = Raise e ->
         dump_collection py_str db col_ref current_depth max_depth no_limit
         = (Ret tt,
            (collection_prologue col_ref current_depth no_limit
               ++ visits py_str db current_depth max_depth no_limit docs
               ++ snd (visit_document py_str db (dump_collection py_str db)
                         current_depth max_depth no_limit doc_snapshot)
               ++ [Stdout (LErrorWarning (ref_id col_ref));
                   Stdout (LErrorDetails current_depth (exn_msg e))])%list))
  /\ (forall doc_snapshot text t subs,
         json_dumps_document py_str (to_dict doc_snapshot) = (Ret text, t) ->
         collections db (reference doc_snapshot) = Ok subs ->
         visit_document py_str db (dump_collection py_str db)
           current_depth max_depth no_limit doc_snapshot
         = (Ret tt,
            (Stdout (LDocument (current_depth + 1) (ref_id (reference doc_snapshot)))
             :: t
             ++ Stdout (LJson text)
             :: Request (RCollections (reference doc_snapshot))
             :: match subs with
                | [] => []
                | _ =>
                    Stdout (LCheckingSub (current_depth + 1)
                              (ref_id (reference doc_snapshot)))
                    :: runs py_str db (current_depth + 1) max_depth no_limit subs
                end)%list))
  /\ (forall doc_snapshot text t before c after e,
         json_dumps_document py_str (to_dict doc_snapshot) = (Ret text, t) ->
         collections db (reference doc_snapshot) = Ok (before ++ c :: after)%list ->
         current_depth + 1 <= max_depth ->
         stream_of db (query_for c no_limit) = SFail e ->
         visit_document py_str db (dump_collection py_str db)
           current_depth max_depth no_limit doc_snapshot
         = (Ret tt,
            (Stdout (LDocument (current_depth + 1) (ref_id (reference doc_snapshot)))
             :: t
             ++ [Stdout (LJson text);
                 Request (RCollections (reference doc_snapshot));
                 Stdout (LCheckingSub (current_depth + 1)
                           (ref_id (reference doc_snapshot)))]
             ++ runs py_str db (current_depth + 1) max_depth no_limit before
             ++ collection_prologue c (current_depth + 1) no_limit
             ++ [Stdout (LErrorWarning (ref_id c));
                 Stdout (LErrorDetails (current_depth + 1) (exn_msg e))]
             ++ runs py_str db (current_depth + 1) max_depth no_limit after)%list))
  /\ (forall docs,
         stream_of db (query_for col_ref no_limit) = yield_all docs SEnd ->
         Forall (visitable py_str db) docs ->
         dump_collection py_str db col_ref current_depth max_depth no_limit
         = (Ret tt,
            (collection_prologue col_ref current_depth no_limit
               ++ visits py_str db current_depth max_depth no_limit docs
               ++ match docs with
                  | [] => [Stdout (LEmpty (current_depth + 1) (ref_id col_ref))]
                  | _ => []
                  end)%list)).
Proof.
  intros Hle. repeat apply conj.
  - intros docs e Hs Hall.
    rewrite (dump_collection_through col_ref current_depth max_depth no_limit
               docs (SFail e) Hle Hs Hall).
    reflexivity.
  - intros docs doc_snapshot rest e Hs Hall Hv.
    rewrite (dump_collection_through col_ref current_depth max_depth no_limit
               docs (SYield doc_snapshot rest) Hle Hs Hall).
    cbv zeta. cbn [for_stream]. rewrite bind_fst, bind_snd, Hv.
    cbn [collection_epilogue]. rewrite app_nil_r. reflexivity.
  - intros doc_snapshot text t subs. apply visit_document_listed.
  - intros doc_snapshot text t before c after e Hjson Hsubs Hle' Hs.
    rewrite (visit_document_listed _ _ _ _ _ _ _ Hjson Hsubs).
    destruct (before ++ c :: after)%list as [| c0 rest0] eqn:Hl.
    { destruct before; discriminate Hl. }
    rewrite <- Hl. unfold runs. rewrite flat_map_app. cbn [flat_map].
    rewrite (dump_collection_fetch_fails c (current_depth + 1) max_depth no_limit e Hle' Hs).
    cbn [snd]. reflexivity.
  - intros docs Hs Hall.
    rewrite (dump_collection_through col_ref current_depth max_depth no_limit
               docs SEnd Hle Hs Hall).
    cbv zeta. cbn [for_stream ret fst snd collection_epilogue app].
    destruct docs as [| d rest]; [reflexivity |].
    replace (Z.of_nat (List.length (d :: rest)) =? 0) with false
      by (symmetry; apply Z.eqb_neq; cbn [List.length]; lia).
    reflexivity.
Qed.

End CollectionErrors.

Lemma collection_errors_are_contained_witness :
  dump_collection sample_str flaky_db ["users"] 0 10 false
  = (Ret tt,
     (collection_prologue ["users"] 0 false
        ++ visits sample_str flaky_db 0 10 false
             [mkSnapshot ["users"; "a"] (VDict [("n", VInt 1)])]
        ++ [Stdout (LErrorWarning "users");
            Stdout (LErrorDetails 0 "503 The service is currently unavailable.")])%list).
Proof.
  refine (proj1 (collection_errors_are_contained sample_str flaky_db
                   ["users"] 0 10 false _)
                [mkSnapshot ["users"; "a"] (VDict [("n", VInt 1)])]
                (mkExn "ServiceUnavailable" "503 The service is currently unavailable.")
                eq_refl _).
  - lia.
  - constructor; [| constructor]. split.
    + eexists. eexists. reflexivity.
    + eexists. reflexivity.
Defined.

(** In a store whose iteration of [users] breaks after document [a]: [a] is
    visited with its subcollections, of which [posts] is refused and [likes]
    is still run, and the warning for [users] comes last. *)
Example broken_iteration :
  stdout_of (snd (dump_collection sample_str flaky_db ["users"] 0 10 false))
  = [LRuleTop 0; LProcessing 0 "users"; LRule 0; LFetchingUpTo 0 5 "users";
     LDocument 1 "a"; LJson (json_text_of_a);
     LCheckingSub 1 "a";
     LRuleTop 1; LProcessing 1 "posts"; LRule 1; LFetchingUpTo 1 5 "posts";
     LErrorWarning "posts";
     LErrorDetails 1 "403 Missing or insufficient permissions.";
     LRuleTop 1; LProcessing 1 "likes"; LRule 1; LFetchingUpTo 1 5 "likes";
     LEmpty 2 "likes";
     LErrorWarning "users";
     LErrorDetails 0 "503 The service is currently unavailable."].
Proof. reflexivity. Qed.

(** In the sample store the fetch of [posts] is refused: the warning names
    [posts], and its sibling [likes] and the sibling document [b] are
    processed after it. *)
Example refused_subcollection :
  stdout_of (snd (dump_collection sample_str sample_db ["users"] 0 10 false))
  = [LRuleTop 0; LProcessing 0 "users"; LRule 0; LFetchingUpTo 0 5 "users";
     LDocument 1 "a"; LJson (json_text_of_a);
     LCheckingSub 1 "a";
     LRuleTop 1; LProcessing 1 "posts"; LRule 1; LFetchingUpTo 1 5 "posts";
     LErrorWarning "posts";
     LErrorDetails 1 "403 Missing or insufficient permissions.";
     LRuleTop 1; LProcessing 1 "likes"; LRule 1; LFetchingUpTo 1 5 "likes";
     LEmpty 2 "likes";
     LDocument 1 "b"; LJson "{}"].
Proof. reflexivity. Qed.

(* ===================================================================== *)
(** * The generic fallback of the serializer                              *)
(* ===================================================================== *)

Section GenericFallback.

Variable py_str : Value -> result string.

Lemma json_serializer_unmatched obj :
  unmatched obj = true ->
  json_serializer py_str obj
  = try_except_TypeError
      (json_dumps obj ;; ret obj)
      (s <- lift (py_str obj) ;; ret (VStr s))
      (fun e => print_stderr (serialize_warning obj e) ;; ret (VStr (placeholder obj))).
Proof.
  unfold unmatched, json_serializer, serialize_warning, placeholder. intros H.
  destruct obj; try discriminate H; try reflexivity.
  simpl in H. rewrite andb_true_r in H. apply negb_true_iff in H.
  simpl. rewrite H. reflexivity.
Qed.

(** C4, as the code has it: for a value that no special-case rule matches the
    serializer first tries the generic encoding and returns the value itself
    when that succeeds; when the attempt raises [TypeError] it returns the
    string form that [str()] gives; when the attempt raises any other
    exception it writes a warning on the diagnostic stream, nothing on
    standard output, and returns [Unserializable(<type name>)]. *)
Theorem generic_fallback obj :
  unmatched obj = true ->
  match fst (json_dumps obj) with
  | Ret _ => json_serializer py_str obj = (Ret obj, [])
  | Raise e =>
      if is_TypeError e then
        forall s, py_str obj = Ok s -> json_serializer py_str obj = (Ret (VStr s), [])
      else
        json_serializer py_str obj
        = (Ret (VStr ("Unserializable(" ++ type_name obj ++ ")")),
           [Stderr ("Warning: Could not serialize object of type "
                      ++ type_repr obj ++ ": " ++ exn_msg e)])
  | Exhausted => False
  end.
Proof.
  intros H. rewrite (json_serializer_unmatched obj H).
  pose proof (json_dumps_silent obj) as Hs.
  pose proof (finishes_json_dumps obj) as Hf. unfold finishes in Hf.
  destruct (json_dumps obj) as [[text | e |] t]; simpl in *; subst t.
  - reflexivity.
  - destruct (is_TypeError e) eqn:E; simpl.
    + intros s ->. reflexivity.
    + reflexivity.
  - contradiction.
Qed.

End GenericFallback.

Lemma generic_fallback_witness :
  json_serializer sample_str (VObject deep_object)
  = (Ret (VStr "Unserializable(Deep)"),
     [Stderr "Warning: Could not serialize object of type <class 'Deep'>: maximum recursion depth exceeded"]).
Proof.
  exact (generic_fallback sample_str (VObject deep_object) eq_refl).
Defined.

(** C4 as the specification words it fails: when the generic encoding raises
    [TypeError] and [str()] raises in turn, the exception of [str()] leaves
    the serializer; no placeholder is returned and nothing is written on the
    diagnostic stream. *)
Lemma generic_fallback_str_raises :
  ~ (forall (py_str : Value -> result string) (obj : Value),
        unmatched obj = true ->
        (exists e, fst (json_dumps obj) = Raise e) ->
        (exists e, py_str obj = Error e) ->
        exists warning,
          json_serializer py_str obj
          = (Ret (VStr ("Unserializable(" ++ type_name obj ++ ")")), [Stderr warning])).
Proof.
  intros H.
  destruct (H failing_str (VObject plain_object) eq_refl) as [w Hw].
  - eexists. reflexivity.
  - eexists. reflexivity.
  - discriminate Hw.
Qed.

Example str_raises_run :
  json_serializer failing_str (VObject plain_object)
  = (Raise (mkExn "RuntimeError" "__str__ failed"), []).
Proof. reflexivity. Qed.

(* ===================================================================== *)
(** * A value that cannot be serialized                                   *)
(* ===================================================================== *)

Section PerValueFailure.

Variable py_str : Value -> result string.

(** The hook on an object at which the generic encoding gives up with an
    exception other than [TypeError]. *)
Lemma json_serializer_caught o :
  is_TypeError (obj_dumps_exn o) = false ->
  obj_eq_sentinel o = false ->
  json_serializer py_str (VObject o)
  = (Ret (VStr (placeholder (VObject o))),
     [Stderr (serialize_warning (VObject o) (obj_dumps_exn o))]).
Proof.
  intros Hte Heq. rewrite json_serializer_unmatched.
  - simpl. rewrite Hte. reflexivity.
  - unfold unmatched. simpl. rewrite Heq. reflexivity.
Qed.

Lemma encode_dict_failure_inline o level key pre post :
  is_TypeError (obj_dumps_exn o) = false ->
  obj_eq_sentinel o = false ->
  encode_dict (Some 2%nat) (with_json_serializer py_str) level
    (pre ++ (key, VObject o) :: post)
  = (cs1 <- encode_dict (Some 2%nat) (with_json_serializer py_str) level pre ;;
     print_stderr (serialize_warning (VObject o) (obj_dumps_exn o)) ;;
     cs2 <- encode_dict (Some 2%nat) (with_json_serializer py_str) level post ;;
     ret (cs1 ++ placeholder_chunk key (VObject o) :: cs2)%list).
Proof.
  intros Hte Heq. induction pre as [| [k v] pre IH].
  - cbn [app encode_dict].
    change (iterencode (Some 2%nat) (with_json_serializer py_str) level (VObject o))
      with (r <- json_serializer py_str (VObject o) ;;
            iterencode (Some 2%nat) no_default level r).
    rewrite (json_serializer_caught o Hte Heq).
    destruct (encode_dict (Some 2%nat) (with_json_serializer py_str) level post)
      as [[cs | e |] t]; reflexivity.
  - cbn [app encode_dict]. rewrite IH.
    destruct (iterencode (Some 2%nat) (with_json_serializer py_str) level v)
      as [[c | e |] t]; try reflexivity.
    destruct (encode_dict (Some 2%nat) (with_json_serializer py_str) level pre)
      as [[cs1 | e |] t1]; try reflexivity.
    destruct (encode_dict (Some 2%nat) (with_json_serializer py_str) level post)
      as [[cs2 | e |] t2]; cbn -[String.append]; rewrite ?app_nil_r, <- ?app_assoc;
      reflexivity.
Qed.

(** C3, as the code has it: when the generic encoding of a field value gives
    up inside the serializer with an exception other than [TypeError], the
    serializer writes a warning on the diagnostic stream and answers with the
    placeholder; the fields before and after it are encoded as they are on
    their own and the placeholder stands inline between them; the document is
    printed, and its visit returns normally, so the loop goes on with the
    next document. *)
Theorem caught_failure_is_local o key pre post :
  is_TypeError (obj_dumps_exn o) = false ->
  obj_eq_sentinel o = false ->
  let warning := Stderr ("Warning: Could not serialize object of type "
                           ++ obj_type_repr o ++ ": " ++ exn_msg (obj_dumps_exn o)) in
  let chunk := encode_basestring key ++ ": "
                 ++ encode_basestring ("Unserializable(" ++ obj_type_name o ++ ")") in
  let doc_data := VDict (pre ++ (key, VObject o) :: post) in
  json_serializer py_str (VObject o)
  = (Ret (VStr ("Unserializable(" ++ obj_type_name o ++ ")")), [warning])
  /\ (forall cs1 t1 cs2 t2,
         encode_dict (Some 2%nat) (with_json_serializer py_str) 1 pre = (Ret cs1, t1) ->
         encode_dict (Some 2%nat) (with_json_serializer py_str) 1 post = (Ret cs2, t2) ->
         json_dumps_document py_str doc_data
         = (Ret (bracket (Some 2%nat) 0 "{" "}" (cs1 ++ chunk :: cs2)),
            (t1 ++ warning :: t2)%list)
         /\ forall db current_depth max_depth no_limit doc_ref subs,
              collections db doc_ref = Ok subs ->
              let visit := visit_document py_str db (dump_collection py_str db)
                             current_depth max_depth no_limit
                             (mkSnapshot doc_ref doc_data) in
              fst visit = Ret tt
              /\ In (Stdout (LJson (bracket (Some 2%nat) 0 "{" "}" (cs1 ++ chunk :: cs2))))
                    (snd visit)
              /\ In warning (snd visit)).
Proof.
  intros Hte Heq warning chunk doc_data.
  split; [apply (json_serializer_caught o Hte Heq) |].
  intros cs1 t1 cs2 t2 Hpre Hpost.
  assert (Hdoc : json_dumps_document py_str doc_data
                 = (Ret (bracket (Some 2%nat) 0 "{" "}" (cs1 ++ chunk :: cs2)),
                    (t1 ++ warning :: t2)%list)).
  { unfold json_dumps_document, doc_data.
    rewrite iterencode_dict_nonempty by (intros E; symmetry in E; revert E; apply app_cons_not_nil).
    rewrite (encode_dict_failure_inline o 1 key pre post Hte Heq).
    rewrite Hpre, Hpost. cbn -[String.append bracket]. rewrite !app_nil_r. reflexivity. }
  split; [exact Hdoc |].
  intros db current_depth max_depth no_limit doc_ref subs Hsubs visit.
  unfold visit, visit_document, list_collections. cbv zeta.
  cbn [reference to_dict]. rewrite Hdoc, Hsubs.
  destruct subs as [| c rest].
  - cbn -[String.append bracket]. repeat split.
    + right. apply in_or_app. right. now left.
    + right. apply in_or_app. left. apply in_or_app. right. now left.
  - cbn -[String.append bracket for_each dump_collection].
    rewrite for_each_dump_collection. cbn -[String.append bracket flat_map].
    repeat split.
    + right. apply in_or_app. right. now left.
    + right. apply in_or_app. left. apply in_or_app. right. now left.
Qed.

End PerValueFailure.

Lemma caught_failure_is_local_witness :
  json_serializer sample_str (VObject deep_object)
  = (Ret (VStr "Unserializable(Deep)"),
     [Stderr "Warning: Could not serialize object of type <class 'Deep'>: maximum recursion depth exceeded"])
  /\ json_dumps_document sample_str (VDict [("x", VObject deep_object); ("y", VInt 2)])
     = (Ret ("{" ++ newline ++ "  " ++ dquote ++ "x" ++ dquote ++ ": "
                 ++ dquote ++ "Unserializable(Deep)" ++ dquote ++ "," ++ newline
                 ++ "  " ++ dquote ++ "y" ++ dquote ++ ": 2" ++ newline ++ "}"),
        [Stderr "Warning: Could not serialize object of type <class 'Deep'>: maximum recursion depth exceeded"]).
Proof.
  pose proof (caught_failure_is_local sample_str deep_object "x" [] [("y", VInt 2)]
                eq_refl eq_refl) as H.
  split.
  - exact (proj1 H).
  - exact (proj1 (proj2 H [] [] _ [] eq_refl eq_refl)).
Defined.

(** C3 as the specification words it fails.  In collection [c] the first
    document holds a value that the generic encoding rejects with
    [TypeError] and whose [str()] raises.  The exception leaves the
    serializer and the encoder and is caught as an error of the collection:
    nothing is written on the diagnostic stream, the document is not printed
    (its other field is lost with it), and the second document, which the
    stream holds, is never visited. *)
Lemma uncaught_failure_abandons_collection :
  let run := dump_collection failing_str fragile_db ["c"] 0 10 false in
  stream_length (stream_of fragile_db (query_for ["c"] false)) = 2%nat
  /\ json_serializer failing_str (VObject plain_object)
     = (Raise (mkExn "RuntimeError" "__str__ failed"), [])
  /\ run = (Ret tt,
            [Stdout (LRuleTop 0); Stdout (LProcessing 0 "c"); Stdout (LRule 0);
             Stdout (LFetchingUpTo 0 5 "c"); Request (RStream ["c"] (Some 5));
             Stdout (LDocument 1 "a");
             Stdout (LErrorWarning "c"); Stdout (LErrorDetails 0 "__str__ failed")])
  /\ stderr_of (snd run) = []
  /\ document_headers 1 (snd run) = ["a"].
Proof. repeat split. Qed.

(* ===================================================================== *)
(** * Timestamps                                                          *)
(* ===================================================================== *)

Lemma string_append_assoc (a b c : string) : ((a ++ b) ++ c = a ++ (b ++ c))%string.
Proof. induction a as [| x a IH]; simpl; [reflexivity | now rewrite IH]. Qed.

Lemma string_append_nil_r (a : string) : (a ++ "" = a)%string.
Proof. induction a as [| x a IH]; simpl; [reflexivity | now rewrite IH]. Qed.

Section Timestamps.

Variable py_str : Value -> result string.

(** What [ToDatetime] returns is naive. *)
Lemma ToDatetime_naive seconds nanos dt :
  ToDatetime seconds nanos = Ok dt -> tzinfo dt = None.
Proof.
  unfold ToDatetime.
  destruct (_CheckTimestampValid seconds nanos); [| discriminate].
  destruct (Z.abs _ >? 999999999); [discriminate |].
  destruct (_ && _); [| discriminate].
  destruct (_ord2ymd _) as [[y m] d]. intros H. inversion H. reflexivity.
Qed.

Lemma isoformat_replace_tzinfo dt spec tz :
  tzinfo dt = None ->
  isoformat (replace_tzinfo dt tz) spec = isoformat dt spec ++ _format_offset tz.
Proof.
  intros Hn. unfold isoformat, replace_tzinfo.
  cbn [year month day hour minute second microsecond tzinfo].
  rewrite Hn. cbn [_format_offset].
  rewrite !string_append_assoc. reflexivity.
Qed.

(** For every timestamp in range the serializer appends [Z] to a text that
    already carries the offset [+00:00]. *)
Lemma timestamp_rendering_always_has_offset seconds nanos dt :
  ToDatetime seconds nanos = Ok dt ->
  json_serializer py_str (VTimestamp seconds nanos)
  = (Ret (VStr (isoformat dt ts_milliseconds ++ "+00:00Z")), []).
Proof.
  intros H. pose proof (ToDatetime_naive _ _ _ H) as Hn.
  unfold json_serializer. rewrite H.
  cbn [lift bind ret app].
  rewrite (isoformat_replace_tzinfo dt ts_milliseconds timezone_utc Hn).
  change (_format_offset timezone_utc) with "+00:00".
  rewrite string_append_assoc. reflexivity.
Qed.

(** C1 at [seconds = 1709294400], [nanos = 0]: the serializer returns
    [2024-03-01T12:00:00.000+00:00Z], where the rendering the claim describes
    is [2024-03-01T12:00:00.000Z]. *)
Theorem timestamp_rendering_diverges :
  json_serializer py_str (VTimestamp 1709294400 0)
  = (Ret (VStr "2024-03-01T12:00:00.000+00:00Z"), [])
  /\ iso8601_utc_milliseconds_Z 1709294400 0 = "2024-03-01T12:00:00.000Z"
  /\ json_serializer py_str (VTimestamp 1709294400 0)
     <> (Ret (VStr (iso8601_utc_milliseconds_Z 1709294400 0)), []).
Proof. repeat split. discriminate. Qed.

End Timestamps.

(* ===================================================================== *)
(** * The project of the store connection                                 *)
(* ===================================================================== *)

(** C2 at [--project-id other-project] with a key file of project
    [key-project]: the script announces the override, yet the app it
    initialises, the database it opens and the project it reports are those
    of [key-project].  On every command line the start-up returns what it
    returns without [--project-id]. *)
Theorem project_id_override_is_dropped :
  (let args := mkArgs "key.json" (Some "other-project") 10 false in
   exists app t,
     init_firebase sample_env args = (Ret (app, sample_db, Some "key-project"), t)
     /\ app_project_id sample_env app = Some "key-project"
     /\ In (Stdout (LText "Using override project ID: other-project")) t)
  /\ forall env args,
       fst (init_firebase env args) = fst (init_firebase env (without_override args)).
Proof.
  split.
  - eexists. eexists. split; [reflexivity |]. split; [reflexivity |].
    simpl. tauto.
  - intros env args. unfold init_firebase, without_override.
    cbn [arg_key_file arg_project_id truthy].
    repeat (rewrite !bind_fst; cbn [fst print emit ret]).
    destruct (open_read env (arg_key_file args)) as [f | e]; cbn [lift fst];
      [| reflexivity].
    repeat (rewrite !bind_fst; cbn [fst print emit ret]).
    destruct (json_load env f) as [key_data | e]; cbn [lift fst]; [| reflexivity].
    repeat (rewrite !bind_fst; cbn [fst print emit ret]).
    destruct (Certificate env key_data) as [cred | e]; cbn [lift fst]; [| reflexivity].
    repeat (rewrite !bind_fst; cbn [fst print emit ret]).
    destruct (truthy (arg_project_id args));
      repeat (rewrite !bind_fst; cbn [fst print emit ret]); reflexivity.
Qed.

(* ===================================================================== *)
(** * Beyond the specification: the serializer                            *)
(* ===================================================================== *)

(** On a JSON-safe value the encoder needs no hook: it returns the text, with
    no event, whatever hook it is given. *)
Lemma iterencode_json_safe :
  forall v, json_safe v = true ->
  forall indent default level,
    iterencode indent default level v = (Ret (json_text indent level v), []).
Proof.
  assert (Hlist : forall items,
             Forall (fun v => json_safe v = true ->
                       forall indent default level,
                         iterencode indent default level v
                         = (Ret (json_text indent level v), [])) items ->
             forallb json_safe items = true ->
             forall indent default level,
               encode_list indent default level items
               = (Ret (map (json_text indent level) items), [])).
  { intros items IH. induction IH as [| x l Hx _ IHl]; intros Hs indent default level.
    - reflexivity.
    - simpl in Hs. apply andb_prop in Hs. destruct Hs as [Hx' Hl'].
      cbn [encode_list map]. rewrite (Hx Hx'), (IHl Hl'). reflexivity. }
  assert (Hdict : forall items,
             Forall (fun kv => json_safe (snd kv) = true ->
                       forall indent default level,
                         iterencode indent default level (snd kv)
                         = (Ret (json_text indent level (snd kv)), [])) items ->
             forallb (fun kv => json_safe (snd kv)) items = true ->
             forall indent default level,
               encode_dict indent default level items
               = (Ret (map (fun kv => encode_basestring (fst kv) ++ key_separator
                                        ++ json_text indent level (snd kv)) items), [])).
  { intros items IH. induction IH as [| [k x] l Hx _ IHl]; intros Hs indent default level.
    - reflexivity.
    - simpl in Hs. apply andb_prop in Hs. destruct Hs as [Hx' Hl'].
      cbn [encode_dict map fst snd]. cbn [snd] in Hx. rewrite (Hx Hx'), (IHl Hl').
      reflexivity. }
  induction v as [v Hv | items IH | items IH] using Value_nested_ind;
    intros Hs indent default level.
  - destruct v; try discriminate Hs; try discriminate Hv; try reflexivity.
    destruct b; reflexivity.
  - destruct items as [| x rest]; [reflexivity |].
    unfold json_text. rewrite !iterencode_list_eq.
    cbn [json_safe] in Hs.
    rewrite !(Hlist (x :: rest) IH Hs). reflexivity.
  - destruct items as [| kv rest]; [reflexivity |].
    unfold json_text. rewrite !iterencode_dict_eq.
    cbn [json_safe] in Hs.
    rewrite !(Hdict (kv :: rest) IH Hs). reflexivity.
Qed.

Lemma encode_list_returns indent level items cs :
  Forall (fun v => forall indent level text,
              fst (iterencode indent no_default level v) = Ret text ->
              json_safe v = true) items ->
  fst (encode_list indent no_default level items) = Ret cs ->
  forallb json_safe items = true.
Proof.
  intros IH. revert cs. induction IH as [| x l Hx _ IHl]; intros cs H.
  - reflexivity.
  - cbn [encode_list] in H. rewrite bind_fst in H.
    destruct (fst (iterencode indent no_default level x)) as [c | e |] eqn:Ex;
      try discriminate H.
    rewrite bind_fst in H.
    destruct (fst (encode_list indent no_default level l)) as [cs' | e |] eqn:El;
      try discriminate H.
    cbn [forallb]. rewrite (Hx _ _ _ Ex), (IHl _ eq_refl). reflexivity.
Qed.

Lemma encode_dict_returns indent level items cs :
  Forall (fun kv => forall indent level text,
              fst (iterencode indent no_default level (snd kv)) = Ret text ->
              json_safe (snd kv) = true) items ->
  fst (encode_dict indent no_default level items) = Ret cs ->
  forallb (fun kv => json_safe (snd kv)) items = true.
Proof.
  intros IH. revert cs. induction IH as [| [k x] l Hx _ IHl]; intros cs H.
  - reflexivity.
  - cbn [encode_dict] in H. rewrite bind_fst in H. cbn [snd] in Hx.
    destruct (fst (iterencode indent no_default level x)) as [c | e |] eqn:Ex;
      try discriminate H.
    rewrite bind_fst in H.
    destruct (fst (encode_dict indent no_default level l)) as [cs' | e |] eqn:El;
      try discriminate H.
    cbn [forallb snd]. rewrite (Hx _ _ _ Ex), (IHl _ eq_refl). reflexivity.
Qed.

(** Only JSON-safe values get through the encoder without a hook. *)
Lemma iterencode_returns_json_safe :
  forall v indent level text,
    fst (iterencode indent no_default level v) = Ret text -> json_safe v = true.
Proof.
  induction v as [v Hv | items IH | items IH] using Value_nested_ind;
    intros indent level text H.
  - destruct v; try discriminate Hv; try reflexivity; discriminate H.
  - destruct items as [| x rest]; [reflexivity |].
    rewrite iterencode_list_eq, bind_fst in H.
    destruct (fst (encode_list indent no_default (S level) (x :: rest)))
      as [cs | e |] eqn:E; try discriminate H.
    cbn [json_safe]. exact (encode_list_returns _ _ _ _ IH E).
  - destruct items as [| kv rest]; [reflexivity |].
    rewrite iterencode_dict_eq, bind_fst in H.
    destruct (fst (encode_dict indent no_default (S level) (kv :: rest)))
      as [cs | e |] eqn:E; try discriminate H.
    cbn [json_safe]. exact (encode_dict_returns _ _ _ _ IH E).
Qed.

Lemma json_safe_unmatched v : json_safe v = true -> unmatched v = true.
Proof. destruct v; try discriminate; reflexivity. Qed.

Section SerializerBeyond.

Variable py_str : Value -> result string.

(** X1: on a value that is JSON-safe all the way down (null, booleans,
    numbers, strings, and lists and mappings of such) the serializer is the
    identity and has no effect: the value comes back unchanged, nothing is
    printed and [str()] is not consulted. *)
Theorem json_serializer_identity_on_json_safe v :
  json_safe v = true -> json_serializer py_str v = (Ret v, []).
Proof.
  intros H. rewrite (json_serializer_unmatched py_str v (json_safe_unmatched v H)).
  unfold json_dumps. rewrite (iterencode_json_safe v H). reflexivity.
Qed.

(** X2: whatever value the serializer returns is JSON-safe: the encoder can
    write it without calling the serializer again.  (The answer is the value
    itself only when the value was JSON-safe already; otherwise it is a
    string or the mapping of a GeoPoint.) *)
Theorem json_serializer_answer_is_json_safe obj r t :
  json_serializer py_str obj = (Ret r, t) -> json_safe r = true.
Proof.
  intros H.
  assert (Hgen : unmatched obj = true -> json_safe r = true).
  { intros Hu. rewrite (json_serializer_unmatched py_str obj Hu) in H.
    pose proof (iterencode_returns_json_safe obj None 0%nat) as Hsafe.
    unfold json_dumps in H.
    destruct (iterencode None no_default 0 obj) as [[text | e |] t0]; simpl in *.
    - inversion H; subst. exact (Hsafe text eq_refl).
    - destruct (is_TypeError e).
      + destruct (py_str obj); simpl in H; inversion H; reflexivity.
      + simpl in H. inversion H; reflexivity.
    - discriminate H. }
  destruct obj; try (apply Hgen; reflexivity).
  - unfold json_serializer in H. destruct (ToDatetime seconds nanos);
      simpl in H; inversion H; reflexivity.
  - discriminate H.
  - inversion H; reflexivity.
  - inversion H; reflexivity.
  - inversion H; reflexivity.
  - inversion H; reflexivity.
  - destruct (obj_eq_sentinel o) eqn:E.
    + unfold json_serializer in H. simpl in H. rewrite E in H.
      inversion H; reflexivity.
    + apply Hgen. unfold unmatched. simpl. rewrite E. reflexivity.
Qed.

(** X3: the serializer never prints on standard output and never reads from
    the store: either it has no effect at all, or its one effect is the
    warning on the diagnostic stream that goes with the [Unserializable]
    placeholder, which it then returns. *)
Theorem json_serializer_effects obj :
  snd (json_serializer py_str obj) = []
  \/ exists e,
       json_serializer py_str obj
       = (Ret (VStr ("Unserializable(" ++ type_name obj ++ ")")),
          [Stderr ("Warning: Could not serialize object of type "
                     ++ type_repr obj ++ ": " ++ exn_msg e)]).
Proof.
  assert (Hgen : unmatched obj = true ->
                 snd (json_serializer py_str obj) = []
                 \/ exists e,
                      json_serializer py_str obj
                      = (Ret (VStr (placeholder obj)), [Stderr (serialize_warning obj e)])).
  { intros Hu. rewrite (json_serializer_unmatched py_str obj Hu).
    pose proof (json_dumps_silent obj) as Hs.
    destruct (json_dumps obj) as [[text | e |] t0]; simpl in *; subst t0.
    - now left.
    - destruct (is_TypeError e).
      + left. destruct (py_str obj); reflexivity.
      + right. now exists e.
    - now left. }
  destruct obj; try (apply Hgen; reflexivity).
  - left. unfold json_serializer. destruct (ToDatetime seconds nanos); reflexivity.
  - now left.
  - now left.
  - now left.
  - now left.
  - now left.
  - destruct (obj_eq_sentinel o) eqn:E.
    + left. unfold json_serializer. simpl. rewrite E. reflexivity.
    + apply Hgen. unfold unmatched. simpl. rewrite E. reflexivity.
Qed.

End SerializerBeyond.

Lemma json_serializer_identity_on_json_safe_witness :
  json_serializer failing_str (VDict [("tags", VList [VStr "a"; VNone]); ("n", VInt 3)])
  = (Ret (VDict [("tags", VList [VStr "a"; VNone]); ("n", VInt 3)]), []).
Proof.
  apply (json_serializer_identity_on_json_safe failing_str
           (VDict [("tags", VList [VStr "a"; VNone]); ("n", VInt 3)])).
  reflexivity.
Defined.

Lemma json_serializer_answer_is_json_safe_witness :
  json_safe (VDict [("latitude", VFloat (mkFloat "12.5"));
                    ("longitude", VFloat (mkFloat "-7.25"))]) = true.
Proof.
  apply (json_serializer_answer_is_json_safe sample_str
           (VGeoPoint (mkFloat "12.5") (mkFloat "-7.25"))
           (VDict [("latitude", VFloat (mkFloat "12.5"));
                   ("longitude", VFloat (mkFloat "-7.25"))]) []).
  reflexivity.
Defined.

(* ===================================================================== *)
(** * Beyond the specification: sentinels, safe documents, timestamps     *)
(* ===================================================================== *)

Lemma encode_dict_app indent default level pre post :
  encode_dict indent default level (pre ++ post)
  = (cs1 <- encode_dict indent default level pre ;;
     cs2 <- encode_dict indent default level post ;;
     ret (cs1 ++ cs2)%list).
Proof.
  induction pre as [| [k v] pre IH]; cbn [app encode_dict].
  - destruct (encode_dict indent default level post) as [[cs | e |] t];
      simpl; rewrite ?app_nil_r; reflexivity.
  - rewrite IH.
    destruct (iterencode indent default level v) as [[c | e |] t]; try reflexivity.
    destruct (encode_dict indent default level pre) as [[cs1 | e |] t1]; try reflexivity.
    destruct (encode_dict indent default level post) as [[cs2 | e |] t2];
      simpl; rewrite ?app_nil_r, <- ?app_assoc; reflexivity.
Qed.

Section SentinelsAndDocuments.

Variable py_str : Value -> result string.

(** X4: the server-timestamp sentinel is never rendered.  An instance of the
    sentinel's class is taken by the timestamp rule, which finds neither
    [ToDatetime] nor [seconds] on it: the serializer raises [AttributeError],
    and so does the encoding of any document that holds one in a field (after
    the fields before it).  The literal [firestore.SERVER_TIMESTAMP] is what
    an object of another class gets when it compares equal to the sentinel,
    whatever else it is. *)
Theorem sentinel_is_not_rendered :
  (forall description,
      json_serializer py_str (VSentinel description)
      = (Raise (AttributeError "'Sentinel' object has no attribute 'seconds'"), []))
  /\ (forall pre key description post cs t,
         encode_dict (Some 2%nat) (with_json_serializer py_str) 1 pre = (Ret cs, t) ->
         json_dumps_document py_str (VDict (pre ++ (key, VSentinel description) :: post))
         = (Raise (AttributeError "'Sentinel' object has no attribute 'seconds'"), t))
  /\ (forall o,
         obj_eq_sentinel o = true ->
         json_serializer py_str (VObject o)
         = (Ret (VStr "firestore.SERVER_TIMESTAMP"), [])).
Proof.
  split; [reflexivity |]. split.
  - intros pre key description post cs t Hpre.
    unfold json_dumps_document.
    rewrite iterencode_dict_nonempty
      by (intros E; symmetry in E; revert E; apply app_cons_not_nil).
    rewrite encode_dict_app, Hpre. cbn [encode_dict].
    change (iterencode (Some 2%nat) (with_json_serializer py_str) 1
              (VSentinel description))
      with (r <- json_serializer py_str (VSentinel description) ;;
            iterencode (Some 2%nat) no_default 1 r).
    cbn. rewrite app_nil_r. reflexivity.
  - intros o H. unfold json_serializer. simpl. rewrite H. reflexivity.
Qed.

(** X5: a document whose fields are JSON-safe all the way down is encoded
    without the serializer: the text is that of the plain encoder with
    two-space indentation, nothing is written on the diagnostic stream, and
    the encoding cannot fail, whatever [str()] would do. *)
Theorem json_safe_document_needs_no_serializer doc_data :
  json_safe doc_data = true ->
  json_dumps_document py_str doc_data
  = (Ret (json_text (Some 2%nat) 0 doc_data), []).
Proof.
  intros H. unfold json_dumps_document. apply (iterencode_json_safe doc_data H).
Qed.

End SentinelsAndDocuments.

Lemma json_safe_document_needs_no_serializer_witness :
  json_dumps_document failing_str (VDict [("n", VInt 1)]) = (Ret json_text_of_a, []).
Proof.
  apply (json_safe_document_needs_no_serializer failing_str (VDict [("n", VInt 1)])).
  reflexivity.
Defined.

(** A document that holds the sentinel: its collection gets the warning, and
    nothing of the document is printed. *)
Example sentinel_in_a_document :
  dump_collection sample_str
    (mkStore (fun _ => SYield (mkSnapshot ["c"; "a"]
                                 (VDict [("n", VInt 1); ("at", SERVER_TIMESTAMP)])) SEnd)
             (fun _ => Ok []) (Ok [["c"]]))
    ["c"] 0 10 false
  = (Ret tt,
     [Stdout (LRuleTop 0); Stdout (LProcessing 0 "c"); Stdout (LRule 0);
      Stdout (LFetchingUpTo 0 5 "c"); Request (RStream ["c"] (Some 5));
      Stdout (LDocument 1 "a");
      Stdout (LErrorWarning "c");
      Stdout (LErrorDetails 0 "'Sentinel' object has no attribute 'seconds'")]).
Proof. reflexivity. Qed.

(** ** Timestamps *)

Lemma _RoundTowardZero_nonneg value :
  0 <= value -> _RoundTowardZero value 1000 = value / 1000.
Proof.
  intros H. unfold _RoundTowardZero.
  assert (0 <= value / 1000) by (apply Z.div_pos; lia).
  replace (value / 1000 <? 0) with false by lia. reflexivity.
Qed.

Lemma _CheckTimestampValid_ok seconds nanos :
  -62135596800 <= seconds <= 253402300799 -> 0 <= nanos <= 999999999 ->
  _CheckTimestampValid seconds nanos = Ok tt.
Proof.
  intros Hs Hn. unfold _CheckTimestampValid, _TIMESTAMP_SECONDS_MIN, _TIMESTAMP_SECONDS_MAX.
  replace ((seconds <? -62135596800) || (seconds >? 253402300799)) with false
    by (symmetry; apply orb_false_iff; lia).
  replace ((nanos <? 0) || (nanos >=? 1000000000)) with false
    by (symmetry; apply orb_false_iff; lia).
  reflexivity.
Qed.

Lemma _CheckTimestampValid_error seconds nanos :
  seconds < -62135596800 \/ 253402300799 < seconds \/ nanos < 0 \/ 999999999 < nanos ->
  exists msg, _CheckTimestampValid seconds nanos = Error (ValueError msg).
Proof.
  intros H. unfold _CheckTimestampValid, _TIMESTAMP_SECONDS_MIN, _TIMESTAMP_SECONDS_MAX.
  destruct ((seconds <? -62135596800) || (seconds >? 253402300799)) eqn:Es.
  { eexists. reflexivity. }
  apply orb_false_iff in Es.
  replace ((nanos <? 0) || (nanos >=? 1000000000)) with true
    by (symmetry; apply orb_true_iff; lia).
  eexists. reflexivity.
Qed.

Section TimestampRange.

Variable py_str : Value -> result string.

(** X6: a timestamp is rendered exactly when it is a valid one: its seconds
    between 0001-01-01T00:00:00 and 9999-12-31T23:59:59 UTC and its
    nanoseconds within a second.  Then the serializer returns a string and
    has no effect; otherwise [ToDatetime] refuses the timestamp and the
    serializer raises its [ValueError]. *)
Theorem timestamp_rendered_within_range seconds nanos :
  (-62135596800 <= seconds <= 253402300799 -> 0 <= nanos <= 999999999 ->
   exists text,
     json_serializer py_str (VTimestamp seconds nanos) = (Ret (VStr text), []))
  /\ (seconds < -62135596800 \/ 253402300799 < seconds
      \/ nanos < 0 \/ 999999999 < nanos ->
      exists msg,
        json_serializer py_str (VTimestamp seconds nanos)
        = (Raise (ValueError msg), [])).
Proof.
  unfold json_serializer, ToDatetime. split.
  - intros Hs Hn. rewrite (_CheckTimestampValid_ok seconds nanos Hs Hn).
    rewrite _RoundTowardZero_nonneg by lia.
    set (total_us := seconds * 1000000 + nanos / 1000).
    assert (Hq : 0 <= nanos / 1000 < 1000000).
    { split; [apply Z.div_pos; lia | apply Z.div_lt_upper_bound; lia]. }
    assert (Hd : -719162 <= total_us / 86400000000 < 2932897).
    { split.
      - apply Z.div_le_lower_bound; unfold total_us; lia.
      - apply Z.div_lt_upper_bound; unfold total_us; lia. }
    replace (Z.abs (total_us / 86400000000) >? 999999999) with false by lia.
    replace ((0 <? _EPOCH_ORDINAL + total_us / 86400000000)
             && (_EPOCH_ORDINAL + total_us / 86400000000 <=? _MAXORDINAL))
      with true by (unfold _EPOCH_ORDINAL, _MAXORDINAL; lia).
    destruct (_ord2ymd (_EPOCH_ORDINAL + total_us / 86400000000)) as [[y m] d].
    eexists. reflexivity.
  - intros H. destruct (_CheckTimestampValid_error seconds nanos H) as [msg Hm].
    rewrite Hm. exists msg. reflexivity.
Qed.

End TimestampRange.

Lemma timestamp_rendered_within_range_witness :
  exists text,
    json_serializer sample_str (VTimestamp 253402300799 999999999)
    = (Ret (VStr text), []).
Proof.
  apply (proj1 (timestamp_rendered_within_range sample_str 253402300799 999999999)).
  - lia.
  - lia.
Defined.

(** The last instant of the range and the first one past it, the first
    instant and the one before it, and nanoseconds that make a full second. *)
Example timestamp_range_ends :
  json_serializer sample_str (VTimestamp 253402300799 999999999)
  = (Ret (VStr "9999-12-31T23:59:59.999+00:00Z"), [])
  /\ (exists msg, json_serializer sample_str (VTimestamp 253402300800 0)
                  = (Raise (ValueError msg), []))
  /\ json_serializer sample_str (VTimestamp (-62135596800) 0)
     = (Ret (VStr "0001-01-01T00:00:00.000+00:00Z"), [])
  /\ (exists msg, json_serializer sample_str (VTimestamp (-62135596801) 999999999)
                  = (Raise (ValueError msg), []))
  /\ (exists msg, json_serializer sample_str (VTimestamp 0 1000000000)
                  = (Raise (ValueError msg), [])).
Proof. repeat split; eexists; reflexivity. Qed.

Section TimestampPrecision.

Variable py_str : Value -> result string.

Lemma same_millisecond_same_fields seconds nanos nanos' :
  0 <= nanos -> 0 <= nanos' -> nanos / 1000000 = nanos' / 1000000 ->
  let us := seconds * 1000000 + nanos / 1000 in
  let us' := seconds * 1000000 + nanos' / 1000 in
  us / 86400000000 = us' / 86400000000
  /\ us mod 86400000000 / 1000000 = us' mod 86400000000 / 1000000
  /\ us mod 86400000000 mod 1000000 / 1000 = us' mod 86400000000 mod 1000000 / 1000.
Proof.
  intros H H' Hq us us'. subst us us'.
  repeat split; Z.div_mod_to_equations; lia.
Qed.

Lemma _CheckTimestampValid_nanos seconds nanos nanos' :
  0 <= nanos <= 999999999 -> 0 <= nanos' <= 999999999 ->
  _CheckTimestampValid seconds nanos = _CheckTimestampValid seconds nanos'.
Proof.
  intros H H'. unfold _CheckTimestampValid.
  destruct ((seconds <? _TIMESTAMP_SECONDS_MIN) || (seconds >? _TIMESTAMP_SECONDS_MAX));
    [reflexivity |].
  replace ((nanos <? 0) || (nanos >=? 1000000000)) with false
    by (symmetry; apply orb_false_iff; lia).
  replace ((nanos' <? 0) || (nanos' >=? 1000000000)) with false
    by (symmetry; apply orb_false_iff; lia).
  reflexivity.
Qed.

(** X7: the rendering of a timestamp is cut, not rounded, to the
    millisecond: two timestamps of the same second whose nanoseconds, each
    within a second, fall in the same millisecond are serialized alike (down
    to the exception when the seconds are out of range). *)
Theorem timestamp_cut_to_millisecond seconds nanos nanos' :
  0 <= nanos <= 999999999 -> 0 <= nanos' <= 999999999 ->
  nanos / 1000000 = nanos' / 1000000 ->
  json_serializer py_str (VTimestamp seconds nanos)
  = json_serializer py_str (VTimestamp seconds nanos').
Proof.
  intros H H' Hq.
  destruct (same_millisecond_same_fields seconds nanos nanos'
              (proj1 H) (proj1 H') Hq) as [F1 [F2 F3]].
  cbv zeta in F1, F2, F3.
  unfold json_serializer, ToDatetime.
  rewrite (_CheckTimestampValid_nanos seconds nanos nanos' H H').
  destruct (_CheckTimestampValid seconds nanos'); [| reflexivity].
  rewrite !_RoundTowardZero_nonneg by lia.
  rewrite F1, F2.
  destruct (Z.abs _ >? 999999999); [reflexivity |].
  destruct (_ && _); [| reflexivity].
  destruct (_ord2ymd _) as [[y m] d].
  cbn [lift bind ret app]. unfold isoformat, _format_time, replace_tzinfo.
  cbn [year month day hour minute second microsecond tzinfo].
  rewrite F3. reflexivity.
Qed.

End TimestampPrecision.

Lemma timestamp_cut_to_millisecond_witness :
  json_serializer sample_str (VTimestamp 1709294400 123000000)
  = json_serializer sample_str (VTimestamp 1709294400 123999999).
Proof.
  apply (timestamp_cut_to_millisecond sample_str 1709294400 123000000 123999999).
  - lia.
  - lia.
  - reflexivity.
Defined.

(* ===================================================================== *)
(** * Beyond the specification: the traversal                             *)
(* ===================================================================== *)

Section VisitFacts.

Variable py_str : Value -> result string.
Variable db : Store.

(** The run of a visit, piece by piece. *)
Lemma visit_document_trace f current_depth max_depth no_limit doc_snapshot :
  snd (visit_document py_str db f current_depth max_depth no_limit doc_snapshot)
  = (Stdout (LDocument (current_depth + 1) (ref_id (reference doc_snapshot)))
     :: snd (json_dumps_document py_str (to_dict doc_snapshot))
     ++ match fst (json_dumps_document py_str (to_dict doc_snapshot)) with
        | Ret text =>
            Stdout (LJson text)
            :: subcollections_trace db f current_depth max_depth no_limit
                 (reference doc_snapshot)
        | _ => []
        end)%list.
Proof.
  unfold visit_document, subcollections_trace, list_collections. cbv zeta.
  destruct (json_dumps_document py_str (to_dict doc_snapshot)) as [[text | e |] t];
    cbn -[for_each]; rewrite ?app_nil_r; try reflexivity.
  destruct (collections db (reference doc_snapshot)) as [[| c rest] | e];
    cbn -[for_each]; try reflexivity.
  destruct (for_each (c :: rest) _) as [r t']. reflexivity.
Qed.

(** The outcome of a visit. *)
Lemma visit_document_outcome f current_depth max_depth no_limit doc_snapshot :
  fst (visit_document py_str db f current_depth max_depth no_limit doc_snapshot)
  = match fst (json_dumps_document py_str (to_dict doc_snapshot)) with
    | Ret _ =>
        match collections db (reference doc_snapshot) with
        | Ok [] => Ret tt
        | Ok subs =>
            fst (for_each subs (fun sub_col_ref =>
                   f sub_col_ref (current_depth + 1) max_depth no_limit))
        | Error e => Raise e
        end
    | Raise e => Raise e
    | Exhausted => Exhausted
    end.
Proof.
  unfold visit_document, list_collections. cbv zeta.
  destruct (json_dumps_document py_str (to_dict doc_snapshot)) as [[text | e |] t];
    cbn -[for_each]; try reflexivity.
  destruct (collections db (reference doc_snapshot)) as [[| c rest] | e];
    cbn -[for_each]; try reflexivity.
  destruct (for_each (c :: rest) _) as [r t']. reflexivity.
Qed.

(** When the loop over a stream returns, it has gone through the whole
    stream, which did not fail, and counted its documents. *)
Lemma for_stream_returns s body :
  forall k n,
    fst (for_stream s k body) = Ret n ->
    n = k + Z.of_nat (stream_length s) /\ ends_in_failure s = false.
Proof.
  induction s as [| e | d rest IH]; intros k n H; simpl in *.
  - inversion H. split; [lia | reflexivity].
  - discriminate H.
  - rewrite bind_fst in H. destruct (fst (body d)); try discriminate H.
    destruct (IH _ _ H) as [Hn Hf]. split; [lia | exact Hf].
Qed.

End VisitFacts.

(** ** The order of the visit *)

Section VisitOrder.

Variable py_str : Value -> result string.
Variable db : Store.

Lemma document_headers_cons_header depth doc_id (t : Trace) :
  document_headers depth (Stdout (LDocument depth doc_id) :: t)
  = doc_id :: document_headers depth t.
Proof. cbn [document_headers flat_map]. rewrite Z.eqb_refl. reflexivity. Qed.

Lemma visit_document_header current_depth max_depth no_limit doc_snapshot :
  document_headers (current_depth + 1)
    (snd (visit_document py_str db (dump_collection py_str db)
            current_depth max_depth no_limit doc_snapshot))
  = [ref_id (reference doc_snapshot)].
Proof.
  pose proof (visit_document_one_header py_str db current_depth max_depth no_limit
                doc_snapshot) as H.
  unfold visits_at_most in H. revert H.
  rewrite visit_document_trace, document_headers_cons_header.
  destruct (document_headers (current_depth + 1) _) as [| x l]; simpl;
    [reflexivity | lia].
Qed.

Lemma for_stream_headers current_depth max_depth no_limit s :
  forall k,
    let loop := for_stream s k
                  (visit_document py_str db (dump_collection py_str db)
                     current_depth max_depth no_limit) in
    (exists n, document_headers (current_depth + 1) (snd loop) = firstn n (stream_ids s))
    /\ (forall r, fst loop = Ret r ->
                  document_headers (current_depth + 1) (snd loop) = stream_ids s).
Proof.
  induction s as [| e | d rest IH]; intros k; cbn zeta.
  - split; [exists 0%nat |]; reflexivity.
  - split; [exists 0%nat; reflexivity | discriminate].
  - cbn [for_stream stream_ids]. rewrite bind_snd, bind_fst, document_headers_app.
    rewrite visit_document_header.
    destruct (fst (visit_document py_str db (dump_collection py_str db)
                     current_depth max_depth no_limit d)).
    + destruct (IH (k + 1)) as [[n Hn] Hall]. split.
      * exists (S n). cbn [firstn app]. now rewrite Hn.
      * intros r Hr. cbn [app]. now rewrite (Hall r Hr).
    + split; [exists 1%nat; destruct (stream_ids rest); reflexivity | discriminate].
    + split; [exists 1%nat; destruct (stream_ids rest); reflexivity | discriminate].
Qed.

Lemma prologue_no_headers depth col_ref current_depth no_limit :
  document_headers depth (collection_prologue col_ref current_depth no_limit) = [].
Proof. destruct no_limit; reflexivity. Qed.

Lemma epilogue_no_headers depth col_ref current_depth loop :
  document_headers depth (collection_epilogue col_ref current_depth loop) = [].
Proof. destruct loop as [k | e |]; simpl; try reflexivity. destruct (k =? 0); reflexivity. Qed.

(** X8: the documents of a collection are visited in the order in which the
    store returns them, with none skipped in between: the documents visited
    are an initial part of the fetched stream, and all of it when the run
    prints no warning. *)
Theorem documents_visited_in_stream_order col_ref current_depth max_depth no_limit :
  let run := snd (dump_collection py_str db col_ref current_depth max_depth no_limit) in
  let ids := stream_ids (stream_of db (query_for col_ref no_limit)) in
  (exists n, document_headers (current_depth + 1) run = firstn n ids)
  /\ (current_depth <= max_depth ->
      (forall id, ~ In (Stdout (LErrorWarning id)) run) ->
      document_headers (current_depth + 1) run = ids).
Proof.
  cbv zeta. destruct (Z_le_gt_dec current_depth max_depth) as [Hle | Hgt].
  - rewrite dump_collection_run by exact Hle. cbn zeta. cbn [snd].
    rewrite !document_headers_app, prologue_no_headers, epilogue_no_headers, app_nil_r.
    cbn [app].
    destruct (for_stream_headers current_depth max_depth no_limit
                (stream_of db (query_for col_ref no_limit)) 0) as [Hpre Hall].
    cbn zeta in Hpre, Hall. split; [exact Hpre |].
    intros _ Hquiet.
    destruct (fst (for_stream (stream_of db (query_for col_ref no_limit)) 0
                     (visit_document py_str db (dump_collection py_str db)
                        current_depth max_depth no_limit))) as [k | e |] eqn:E.
    + now apply (Hall k).
    + exfalso. apply (Hquiet (ref_id col_ref)).
      apply in_or_app. right. apply in_or_app. right. now left.
    + exfalso.
      pose proof (finishes_for_stream (stream_of db (query_for col_ref no_limit)) 0 _
                    (finishes_visit_document py_str db current_depth max_depth no_limit))
        as Hf.
      unfold finishes in Hf. congruence.
  - rewrite dump_collection_limit_reached by exact Hgt. split.
    + exists 0%nat. reflexivity.
    + intros Hle. lia.
Qed.

End VisitOrder.

(** ** The empty notice *)

Section EmptyNotice.

Variable py_str : Value -> result string.
Variable db : Store.

Lemma emits_body_empties f col_ref current_depth max_depth no_limit :
  (current_depth <= max_depth ->
   forall c, emits (empties_below (current_depth + 1))
                   (f c (current_depth + 1) max_depth no_limit)) ->
  emits (empties_below current_depth)
        (dump_collection_body py_str db f col_ref current_depth max_depth no_limit).
Proof.
  intros H. unfold dump_collection_body.
  destruct (current_depth >? max_depth) eqn:E.
  { now apply emits_emit. }
  assert (Hle : current_depth <= max_depth) by lia. specialize (H Hle).
  unfold print, stream, list_collections.
  repeat first
    [ apply emits_bind; [| intros ? ]
    | apply emits_try_except; [| intros ? ]
    | apply emits_for_stream; intros ?
    | apply emits_for_each; intros ?
    | apply emits_json_dumps_document; intros; exact I
    | apply emits_ret | apply emits_lift
    | apply emits_emit; simpl; solve [ exact I | lia ]
    | eapply emits_weaken; [| apply H ];
      intros [[] | |]; simpl; solve [ trivial | lia ]
    | match goal with
      | |- emits _ (if ?b then _ else _) => destruct b
      | |- emits _ (match ?o with _ => _ end) => destruct o
      end ].
Qed.

Lemma dump_collection_empties max_depth no_limit col_ref current_depth :
  emits (empties_below current_depth)
        (dump_collection py_str db col_ref current_depth max_depth no_limit).
Proof.
  apply (dump_collection_induction py_str db
           (fun _ d m => emits (empties_below d) m) max_depth no_limit).
  intros f c d Hf. now apply emits_body_empties.
Qed.

Lemma emits_visit_document_empties current_depth max_depth no_limit doc_snapshot :
  emits (empties_below (current_depth + 1))
        (visit_document py_str db (dump_collection py_str db)
           current_depth max_depth no_limit doc_snapshot).
Proof.
  unfold visit_document, print, list_collections.
  repeat first
    [ apply emits_bind; [| intros ? ]
    | apply emits_for_each; intros ?
    | apply emits_json_dumps_document; intros; exact I
    | apply emits_ret | apply emits_lift
    | apply emits_emit; exact I
    | apply dump_collection_empties
    | match goal with
      | |- emits _ (match ?o with _ => _ end) => destruct o
      end ].
Qed.

(** X9: a visited collection gets the empty notice exactly when its fetch
    yields no document and does not fail.  With one document or more there is
    no such notice at its level, also when the visit breaks off; with a
    failing fetch there is the warning instead. *)
Theorem empty_notice_iff_empty_stream col_ref current_depth max_depth no_limit :
  current_depth <= max_depth ->
  forall id,
    In (Stdout (LEmpty (current_depth + 1) id))
       (snd (dump_collection py_str db col_ref current_depth max_depth no_limit))
    <-> id = ref_id col_ref /\ stream_of db (query_for col_ref no_limit) = SEnd.
Proof.
  intros Hle id. rewrite dump_collection_run by exact Hle. cbn zeta. cbn [snd].
  set (s := stream_of db (query_for col_ref no_limit)).
  set (body := visit_document py_str db (dump_collection py_str db)
                 current_depth max_depth no_limit).
  split.
  - intros H. apply in_app_or in H. destruct H as [H | H].
    { exfalso. destruct no_limit; simpl in H; intuition discriminate. }
    apply in_app_or in H. destruct H as [H | H].
    + exfalso.
      assert (Hl : emits (empties_below (current_depth + 1)) (for_stream s 0 body)).
      { apply emits_for_stream. intros d. apply emits_visit_document_empties. }
      unfold emits in Hl. rewrite Forall_forall in Hl. specialize (Hl _ H).
      simpl in Hl. lia.
    + destruct (fst (for_stream s 0 body)) as [k | e |] eqn:E; simpl in H.
      * destruct (k =? 0) eqn:Ek; simpl in H; [| contradiction].
        destruct H as [H | []]. inversion H; subst. split; [reflexivity |].
        destruct (for_stream_returns s body 0 k E) as [Hk Hf].
        destruct s; simpl in *; [reflexivity | discriminate | lia].
      * destruct H as [H | [H | []]]; discriminate H.
      * contradiction.
  - intros [-> Hs]. rewrite Hs. simpl.
    destruct no_limit; simpl; tauto.
Qed.

End EmptyNotice.

Lemma empty_notice_iff_empty_stream_witness :
  In (Stdout (LEmpty 2 "likes"))
     (snd (dump_collection sample_str sample_db ["users"; "a"; "likes"] 1 10 false))
  <-> "likes" = ref_id ["users"; "a"; "likes"]
      /\ stream_of sample_db (query_for ["users"; "a"; "likes"] false) = SEnd.
Proof.
  apply (empty_notice_iff_empty_stream sample_str sample_db
           ["users"; "a"; "likes"] 1 10 false).
  discriminate.
Defined.

(** ** Reads and prints go in pairs *)

Lemma count_events_app p (t1 t2 : Trace) :
  count_events p (t1 ++ t2)%list = (count_events p t1 + count_events p t2)%nat.
Proof. unfold count_events. now rewrite filter_app, length_app. Qed.

Section PairedCounts.

Variable py_str : Value -> result string.
Variable db : Store.

(** Two kinds of events, [p] and [q], that the body of [dump_collection]
    produces in equal numbers: none alone, and the same number in the
    prologue of a collection and in what follows the header of a document. *)
Variables p q : Event -> bool.
Hypothesis alone : forall ev,
  match ev with
  | Stdout (LRuleTop _) | Stdout (LJson _) | Request _ => True
  | _ => p ev = q ev
  end.
Hypothesis in_prologue : forall col_ref current_depth no_limit,
  count_events p (collection_prologue col_ref current_depth no_limit)
  = count_events q (collection_prologue col_ref current_depth no_limit).
Hypothesis after_header : forall text doc_ref,
  count_events p [Stdout (LJson text); Request (RCollections doc_ref)]
  = count_events q [Stdout (LJson text); Request (RCollections doc_ref)].

Lemma paired_stderr (t : Trace) :
  Forall (fun ev => match ev with Stderr _ => True | _ => False end) t ->
  count_events p t = count_events q t.
Proof.
  induction 1 as [| ev t Hev _ IH]; [reflexivity |].
  change (ev :: t)%list with ([ev] ++ t)%list. rewrite !count_events_app, IH.
  destruct ev as [l | s | r]; try contradiction.
  pose proof (alone (Stderr s)) as Ha. unfold count_events. simpl in *.
  now rewrite Ha.
Qed.

Lemma paired_single ev :
  match ev with
  | Stdout (LRuleTop _) | Stdout (LJson _) | Request _ => False
  | _ => True
  end ->
  count_events p [ev] = count_events q [ev].
Proof.
  intros H. pose proof (alone ev) as Ha. unfold count_events. simpl.
  destruct ev as [[] | s | r]; try contradiction; now rewrite Ha.
Qed.

Lemma paired_for_each {A} (xs : list A) (f : A -> M unit) :
  (forall x, paired p q (f x)) -> paired p q (for_each xs f).
Proof.
  intros H. unfold paired. induction xs as [| x rest IH]; [reflexivity |].
  cbn [for_each]. rewrite bind_snd, !count_events_app, (H x).
  destruct (fst (f x)); [now rewrite IH | reflexivity | reflexivity].
Qed.

Lemma paired_for_stream s k body :
  (forall d, paired p q (body d)) -> paired p q (for_stream s k body).
Proof.
  intros H. unfold paired. revert k.
  induction s as [| e | d rest IH]; intros k; try reflexivity.
  cbn [for_stream]. rewrite bind_snd, !count_events_app, (H d).
  destruct (fst (body d)); [now rewrite IH | reflexivity | reflexivity].
Qed.

Lemma paired_visit_document f current_depth max_depth no_limit doc_snapshot :
  (forall c, paired p q (f c (current_depth + 1) max_depth no_limit)) ->
  paired p q (visit_document py_str db f current_depth max_depth no_limit doc_snapshot).
Proof.
  intros Hf. unfold paired. rewrite visit_document_trace.
  match goal with
  | |- count_events p (?ev :: ?t)%list = _ =>
      change (ev :: t)%list with ([ev] ++ t)%list
  end.
  rewrite !count_events_app.
  rewrite (paired_single (Stdout (LDocument _ _)) I).
  rewrite (paired_stderr (snd (json_dumps_document py_str (to_dict doc_snapshot))))
    by (apply (emits_json_dumps_document py_str); intros; exact I).
  destruct (fst (json_dumps_document py_str (to_dict doc_snapshot))) as [text | e |];
    try reflexivity.
  unfold subcollections_trace.
  match goal with
  | |- context [(Stdout (LJson text) :: Request ?r :: ?t)%list] =>
      change (Stdout (LJson text) :: Request r :: t)%list
        with ([Stdout (LJson text); Request r] ++ t)%list
  end.
  rewrite !count_events_app, after_header.
  destruct (collections db (reference doc_snapshot)) as [[| c rest] | e];
    try reflexivity.
  match goal with
  | |- context [(?ev :: snd ?m)%list] =>
      change (ev :: snd m)%list with ([ev] ++ snd m)%list
  end.
  rewrite !count_events_app, (paired_single (Stdout (LCheckingSub _ _)) I).
  pose proof (paired_for_each (c :: rest)
                (fun sub_col_ref => f sub_col_ref (current_depth + 1) max_depth no_limit)
                Hf) as Hsub.
  unfold paired in Hsub. now rewrite Hsub.
Qed.

Lemma paired_body f col_ref current_depth max_depth no_limit :
  (current_depth <= max_depth ->
   forall c, paired p q (f c (current_depth + 1) max_depth no_limit)) ->
  paired p q (dump_collection_body py_str db f col_ref current_depth max_depth no_limit).
Proof.
  intros H. destruct (Z_le_gt_dec current_depth max_depth) as [Hle | Hgt].
  - specialize (H Hle). unfold paired.
    rewrite dump_collection_body_run by exact Hle. cbn zeta. cbn [snd].
    rewrite !count_events_app, in_prologue.
    pose proof (paired_for_stream (stream_of db (query_for col_ref no_limit)) 0
                  (visit_document py_str db f current_depth max_depth no_limit)
                  (fun d => paired_visit_document f current_depth max_depth no_limit d H))
      as Hl.
    unfold paired in Hl. rewrite Hl.
    destruct (fst (for_stream _ _ _)) as [k | e |]; simpl.
    + destruct (k =? 0); [| reflexivity].
      now rewrite (paired_single (Stdout (LEmpty _ _)) I).
    + match goal with
      | |- context [[?a; ?b]] => change [a; b] with ([a] ++ [b])%list
      end.
      rewrite !count_events_app.
      now rewrite (paired_single (Stdout (LErrorWarning _)) I),
                  (paired_single (Stdout (LErrorDetails _ _)) I).
    + reflexivity.
  - unfold paired, dump_collection_body.
    replace (current_depth >? max_depth) with true by lia.
    apply (paired_single (Stdout (LMaxDepth _ _ _)) I).
Qed.

Lemma paired_dump_collection col_ref current_depth max_depth no_limit :
  paired p q (dump_collection py_str db col_ref current_depth max_depth no_limit).
Proof.
  apply (dump_collection_induction py_str db (fun _ _ m => paired p q m) max_depth no_limit).
  intros f c d Hf. now apply paired_body.
Qed.

End PairedCounts.

Section ReadsAndPrints.

Variable py_str : Value -> result string.
Variable db : Store.

(** X10: in every run, finished or broken off, there are as many fetches as
    collection banners and as many listings of subcollections as printed
    documents: a collection is fetched once when it is entered and never
    otherwise (not beyond the depth limit), and the subcollections of a
    document are asked for once, and only after its content was printed. *)
Theorem reads_match_prints col_ref current_depth max_depth no_limit :
  let run := snd (dump_collection py_str db col_ref current_depth max_depth no_limit) in
  count_events is_fetch run = count_events is_banner run
  /\ count_events is_listing run = count_events is_json run.
Proof.
  split.
  - apply (paired_dump_collection py_str db is_fetch is_banner).
    + intros [[] | s | r]; try exact I; reflexivity.
    + intros c d []; reflexivity.
    + reflexivity.
  - apply (paired_dump_collection py_str db is_listing is_json).
    + intros [[] | s | r]; try exact I; reflexivity.
    + intros c d []; reflexivity.
    + reflexivity.
Qed.

End ReadsAndPrints.

(** ** The depth limit is inclusive *)

Section InclusiveLimit.

Variable py_str : Value -> result string.
Variable db : Store.




End InclusiveLimit.

(** On the endless store with [max_depth = 1]: the root and the
    subcollection of its document are fetched, the next level is not. *)
Example endless_db_fetches :
  fetched_collections (snd (dump_collection sample_str endless_db ["root"] 0 1 false))
  = [["root"]; ["root"; "doc"; "sub"]].
Proof. reflexivity. Qed.

(* ===================================================================== *)
(** * Beyond the specification: the [__main__] block                      *)
(* ===================================================================== *)

Section MainFacts.

Variable py_str : Value -> result string.
Variable env : Env.
Variable args : Args.

(** The start-up reads nothing from the store. *)
Lemma init_firebase_no_request :
  emits (fun ev => match ev with Request _ => False | _ => True end)
        (init_firebase env args).
Proof.
  unfold init_firebase, print.
  repeat first
    [ apply emits_bind; [| intros ? ]
    | apply emits_ret | apply emits_lift
    | apply emits_emit; exact I
    | match goal with
      | |- emits _ (if ?b then _ else _) => destruct b
      | |- emits _ (match ?o with _ => _ end) => destruct o
      end ].
Qed.

Lemma requests_of_none (t : Trace) :
  Forall (fun ev => match ev with Request _ => False | _ => True end) t ->
  requests_of t = [].
Proof.
  induction 1 as [| ev t Hev _ IH]; [reflexivity |].
  cbn [requests_of flat_map]. fold (requests_of t). rewrite IH.
  destruct ev; simpl in *; try reflexivity. contradiction.
Qed.

Lemma requests_of_app (t1 t2 : Trace) :
  requests_of (t1 ++ t2)%list = (requests_of t1 ++ requests_of t2)%list.
Proof. unfold requests_of. apply flat_map_app. Qed.

(** The run of the second [try], by the answer to the listing of the root
    collections. *)
Lemma dump_top_level_run db actual_project_id :
  dump_top_level py_str args db actual_project_id
  = match root_collections db with
    | Ok [] =>
        (Ret 0,
         [Stdout (LText (newline ++ "Fetching top-level collections..."));
          Request RRootCollections;
          Stdout (LText "No top-level collections found in this database.");
          Stdout (LText "--- Firestore Data Dump Complete (No Data) ---")])
    | Ok cols =>
        (Ret 0,
         ([Stdout (LText (newline ++ "Fetching top-level collections..."));
           Request RRootCollections;
           Stdout (LText ("Found " ++ str_int (Z.of_nat (List.length cols))
                            ++ " top-level collections."));
           Stdout (LText (newline ++ "Fetching data recursively (this may take time and incur read costs)..."))]
          ++ flat_map
               (fun c => snd (dump_collection py_str db c 0 (arg_max_depth args)
                                (arg_no_limit args)))
               cols
          ++ [Stdout (LText (newline ++ "-----------------------------------------"));
              Stdout (LText ("--- End of Firestore Data Dump ("
                               ++ str_option actual_project_id ++ ") ---"))])%list)
    | Error e =>
        (Raise e,
         [Stdout (LText (newline ++ "Fetching top-level collections..."));
          Request RRootCollections])
    end.
Proof.
  unfold dump_top_level.
  destruct (root_collections db) as [[| c rest] | e]; try reflexivity.
  cbn -[for_each dump_collection str_int List.length flat_map newline String.append].
  rewrite for_each_dump_collection.
  cbn -[dump_collection str_int List.length flat_map newline String.append].
  reflexivity.
Qed.

(** The whole run, by the outcome of the start-up. *)
Lemma main_run :
  path_exists env (arg_key_file args) = true ->
  main py_str env args
  = match init_firebase env args with
    | (Ret (_, db, actual_project_id), t) =>
        match root_collections db with
        | Ok _ =>
            (Ret 0,
             (Stdout (LText "--- Starting Firestore Data Dump (Python Admin SDK) ---")
              :: t ++ snd (dump_top_level py_str args db actual_project_id))%list)
        | Error e =>
            (Ret 1,
             (Stdout (LText "--- Starting Firestore Data Dump (Python Admin SDK) ---")
              :: t
              ++ [Stdout (LText (newline ++ "Fetching top-level collections..."));
                  Request RRootCollections;
                  Stdout (LText (newline
                                   ++ "An unexpected error occurred during data fetching: "
                                   ++ exn_msg e))])%list)
        end
    | (Raise e, t) =>
        (Ret 1,
         (Stdout (LText "--- Starting Firestore Data Dump (Python Admin SDK) ---")
          :: t
          ++ [Stdout (LText (newline ++ "Detailed error initializing Firebase Admin SDK:"));
              Stdout (LText ("Error type: " ++ exn_class e));
              Stdout (LText ("Error message: " ++ exn_msg e));
              Stdout (LText "Ensure the key file is valid and has the necessary permissions in IAM.")])%list)
    | (Exhausted, t) =>
        (Exhausted,
         (Stdout (LText "--- Starting Firestore Data Dump (Python Admin SDK) ---")
          :: t)%list)
    end.
Proof.
  intros Hp. unfold main. rewrite Hp. cbn [negb].
  destruct (init_firebase env args) as [[[[app db] pid] | e |] t].
  - cbn -[dump_top_level newline String.append].
    rewrite dump_top_level_run.
    destruct (root_collections db) as [[| c rest] | e];
      cbn -[dump_collection str_int List.length flat_map newline String.append];
      rewrite ?app_nil_r; reflexivity.
  - cbn -[newline String.append]. rewrite ?app_nil_r. reflexivity.
  - cbn -[newline String.append]. rewrite ?app_nil_r. reflexivity.
Qed.

(** X14: the three fatal errors.  A missing key file ends the run with one
    line and status 1; an exception during the start-up is reported by class
    and message and ends the run with status 1, before any read of the store;
    an exception while listing the root collections is reported and ends the
    run with status 1, with that listing as the only read. *)
Theorem fatal_errors :
  (path_exists env (arg_key_file args) = false ->
   main py_str env args
   = (Ret 1,
      [Stdout (LText ("Error: Service account key file not found at '"
                        ++ arg_key_file args ++ "'"))]))
  /\ (path_exists env (arg_key_file args) = true ->
      forall e t,
        init_firebase env args = (Raise e, t) ->
        main py_str env args
        = (Ret 1,
           (Stdout (LText "--- Starting Firestore Data Dump (Python Admin SDK) ---")
            :: t
            ++ [Stdout (LText (newline ++ "Detailed error initializing Firebase Admin SDK:"));
                Stdout (LText ("Error type: " ++ exn_class e));
                Stdout (LText ("Error message: " ++ exn_msg e));
                Stdout (LText "Ensure the key file is valid and has the necessary permissions in IAM.")])%list)
        /\ requests_of (snd (main py_str env args)) = [])
  /\ (path_exists env (arg_key_file args) = true ->
      forall app db actual_project_id t e,
        init_firebase env args = (Ret (app, db, actual_project_id), t) ->
        root_collections db = Error e ->
        main py_str env args
        = (Ret 1,
           (Stdout (LText "--- Starting Firestore Data Dump (Python Admin SDK) ---")
            :: t
            ++ [Stdout (LText (newline ++ "Fetching top-level collections..."));
                Request RRootCollections;
                Stdout (LText (newline
                                 ++ "An unexpected error occurred during data fetching: "
                                 ++ exn_msg e))])%list)
        /\ requests_of (snd (main py_str env args)) = [RRootCollections]).
Proof.
  split; [| split].
  - intros Hp. unfold main. rewrite Hp. reflexivity.
  - intros Hp e t Hi. rewrite (main_run Hp), Hi. split; [reflexivity |].
    pose proof init_firebase_no_request as Hn. unfold emits in Hn. rewrite Hi in Hn.
    cbn [snd] in *.
    change (?a :: t ++ ?l)%list with ([a] ++ t ++ l)%list.
    rewrite !requests_of_app, (requests_of_none t Hn). reflexivity.
  - intros Hp app db pid t e Hi Hr. rewrite (main_run Hp), Hi, Hr.
    split; [reflexivity |].
    pose proof init_firebase_no_request as Hn. unfold emits in Hn. rewrite Hi in Hn.
    cbn [snd] in *.
    change (?a :: t ++ ?l)%list with ([a] ++ t ++ l)%list.
    rewrite !requests_of_app, (requests_of_none t Hn). reflexivity.
Qed.

(** X15: a run that gets past the start-up and the listing ends with status
    0, and what it does is the start-up, the listing, and then the dumps of
    the root collections one after the other, each at depth 0 and each as it
    runs on its own, in the order of the listing, between the opening lines
    and the closing banner that names the project; with no root collection
    it prints the no-data notice instead. *)
Theorem successful_run app db actual_project_id t cols :
  path_exists env (arg_key_file args) = true ->
  init_firebase env args = (Ret (app, db, actual_project_id), t) ->
  root_collections db = Ok cols ->
  main py_str env args
  = (Ret 0,
     (Stdout (LText "--- Starting Firestore Data Dump (Python Admin SDK) ---")
      :: t
      ++ [Stdout (LText (newline ++ "Fetching top-level collections..."));
          Request RRootCollections]
      ++ match cols with
         | [] =>
             [Stdout (LText "No top-level collections found in this database.");
              Stdout (LText "--- Firestore Data Dump Complete (No Data) ---")]
         | _ =>
             [Stdout (LText ("Found " ++ str_int (Z.of_nat (List.length cols))
                               ++ " top-level collections."));
              Stdout (LText (newline ++ "Fetching data recursively (this may take time and incur read costs)..."))]
             ++ flat_map
                  (fun c => snd (dump_collection py_str db c 0 (arg_max_depth args)
                                   (arg_no_limit args)))
                  cols
             ++ [Stdout (LText (newline ++ "-----------------------------------------"));
                 Stdout (LText ("--- End of Firestore Data Dump ("
                                  ++ str_option actual_project_id ++ ") ---"))]
         end)%list).
Proof.
  intros Hp Hi Hr. rewrite (main_run Hp), Hi, Hr, dump_top_level_run, Hr.
  destruct cols as [| c rest]; reflexivity.
Qed.

End MainFacts.

Section StartUp.

Variable env : Env.
Variable args : Args.

(** X16: when the start-up succeeds, the project it reports, which the
    banners then name, is a real project id and the one whose database the
    run goes on to dump. *)
Theorem reported_project_is_the_one_dumped app db actual_project_id t :
  init_firebase env args = (Ret (app, db, actual_project_id), t) ->
  exists p,
    actual_project_id = Some p
    /\ store_of_project env p = Ok db
    /\ In (Stdout (LText ("--- Successfully initialized Firebase Admin SDK for project: "
                            ++ p ++ " ---"))) t.
Proof.
  unfold init_firebase, firestore_client.
  destruct (open_read env (arg_key_file args)) as [f | e];
    cbn -[newline String.append app_project_id truthy]; [| discriminate].
  destruct (json_load env f) as [key_data | e];
    cbn -[newline String.append app_project_id truthy]; [| discriminate].
  destruct (Certificate env key_data) as [cred | e];
    cbn -[newline String.append app_project_id truthy]; [| discriminate].
  destruct (truthy (arg_project_id args)); destruct (_apps env) as [existing |];
    cbn -[newline String.append app_project_id];
    match goal with
    | |- context [app_project_id env ?a] =>
        destruct (app_project_id env a) as [p |] eqn:Ep;
        [ destruct (store_of_project env p) as [db' | e] eqn:Es | ]
    end;
    cbn -[newline String.append app_project_id]; intros H; inversion H; subst;
    (exists p; split; [reflexivity |]; split; [exact Es |];
     cbn [In]; tauto).
Qed.

End StartUp.

Lemma successful_run_witness :
  fst (main sample_str sample_env (mkArgs "key.json" None 10 false)) = Ret 0.
Proof.
  rewrite (successful_run sample_str sample_env (mkArgs "key.json" None 10 false)
             (initialize_app sample_env (mkCredential (Some "key-project")) None)
             sample_db (Some "key-project")
             (snd (init_firebase sample_env (mkArgs "key.json" None 10 false)))
             [["users"]] eq_refl eq_refl eq_refl).
  reflexivity.
Defined.

Lemma reported_project_is_the_one_dumped_witness :
  exists p,
    Some "key-project" = Some p
    /\ store_of_project sample_env p = Ok sample_db
    /\ In (Stdout (LText ("--- Successfully initialized Firebase Admin SDK for project: "
                            ++ p ++ " ---")))
          (snd (init_firebase sample_env (mkArgs "key.json" None 10 false))).
Proof.
  exact (reported_project_is_the_one_dumped sample_env (mkArgs "key.json" None 10 false)
           (initialize_app sample_env (mkCredential (Some "key-project")) None)
           sample_db (Some "key-project")
           (snd (init_firebase sample_env (mkArgs "key.json" None 10 false)))
           eq_refl).
Defined.

(** A run on the sample store with a missing key file, and one in which the
    key file cannot be parsed. *)
Example fatal_runs :
  main sample_str
    (mkEnv (fun _ => false) (open_read sample_env) (json_load sample_env)
           (Certificate sample_env) None [] None (store_of_project sample_env))
    (mkArgs "nowhere.json" None 10 false)
  = (Ret 1,
     [Stdout (LText "Error: Service account key file not found at 'nowhere.json'")])
  /\ fst (main sample_str
            (mkEnv (fun _ => true) (open_read sample_env)
                   (fun _ => Error (mkExn "JSONDecodeError" "Expecting value"))
                   (Certificate sample_env) None [] None (store_of_project sample_env))
            (mkArgs "key.json" None 10 false))
     = Ret 1.
Proof. split; reflexivity. Qed.

(* ===================================================================== *)
(** * Beyond the specification: what [--no-limit] changes                 *)
(* ===================================================================== *)

Lemma for_each_pure {A} (xs : list A) (f : A -> M unit) (g : A -> Trace) :
  (forall x, f x = (Ret tt, g x)) -> for_each xs f = (Ret tt, flat_map g xs).
Proof.
  intros H. induction xs as [| x rest IH]; [reflexivity |].
  cbn [for_each flat_map]. rewrite (H x), IH. reflexivity.
Qed.

Lemma map_flat_map_trace {A} (h : Event -> Event) (g : A -> Trace) (xs : list A) :
  map h (flat_map g xs) = flat_map (fun x => map h (g x)) xs.
Proof.
  induction xs as [| x rest IH]; [reflexivity |].
  cbn [flat_map]. now rewrite map_app, IH.
Qed.

Lemma as_limited_stderr (t : Trace) :
  Forall (fun ev => match ev with Stderr _ => True | _ => False end) t ->
  map as_limited t = t.
Proof.
  induction 1 as [| ev t Hev _ IH]; [reflexivity |].
  cbn [map]. rewrite IH. destruct ev; try contradiction. reflexivity.
Qed.

Section NoLimit.

Variable py_str : Value -> result string.
Variable db : Store.
Hypothesis small : forall c, take_stream 5 (documents db c) = documents db c.

Lemma same_stream col_ref :
  stream_of db (query_for col_ref false) = stream_of db (query_for col_ref true).
Proof. unfold stream_of, query_for. cbn [query_limit query_col]. apply small. Qed.

Lemma limited_visit f current_depth max_depth doc_snapshot :
  (forall c, f c (current_depth + 1) max_depth false
             = (Ret tt,
                map as_limited
                  (snd (dump_collection py_str db c (current_depth + 1) max_depth true)))) ->
  let unlimited := visit_document py_str db (dump_collection py_str db)
                     current_depth max_depth true doc_snapshot in
  visit_document py_str db f current_depth max_depth false doc_snapshot
  = (fst unlimited, map as_limited (snd unlimited)).
Proof.
  intros Hf unlimited. subst unlimited.
  rewrite (surjective_pairing
             (visit_document py_str db f current_depth max_depth false doc_snapshot)).
  rewrite !visit_document_outcome, !visit_document_trace.
  pose proof (emits_json_dumps_document py_str
                (fun ev => match ev with Stderr _ => True | _ => False end)
                (to_dict doc_snapshot) (fun _ => I)) as Hj.
  unfold emits in Hj.
  cbn [map]. rewrite map_app, (as_limited_stderr _ Hj).
  destruct (fst (json_dumps_document py_str (to_dict doc_snapshot))) as [text | e |];
    try reflexivity.
  unfold subcollections_trace.
  destruct (collections db (reference doc_snapshot)) as [[| c rest] | e];
    try reflexivity.
  rewrite (for_each_pure (c :: rest) _ _ Hf), for_each_dump_collection.
  cbn [fst snd map]. rewrite map_flat_map_trace. reflexivity.
Qed.

Lemma limited_loop f current_depth max_depth s :
  (forall c, f c (current_depth + 1) max_depth false
             = (Ret tt,
                map as_limited
                  (snd (dump_collection py_str db c (current_depth + 1) max_depth true)))) ->
  forall k,
    let unlimited := for_stream s k
                       (visit_document py_str db (dump_collection py_str db)
                          current_depth max_depth true) in
    for_stream s k (visit_document py_str db f current_depth max_depth false)
    = (fst unlimited, map as_limited (snd unlimited)).
Proof.
  intros Hf. induction s as [| e | d rest IH]; intros k; cbn zeta; try reflexivity.
  cbn [for_stream]. rewrite (limited_visit f current_depth max_depth d Hf). cbn zeta.
  rewrite (IH (k + 1)). cbn zeta.
  destruct (visit_document py_str db (dump_collection py_str db)
              current_depth max_depth true d) as [[[] | e |] t]; cbn [fst snd bind];
    try reflexivity.
  destruct (for_stream rest (k + 1) _) as [r t']. cbn [fst snd].
  now rewrite map_app.
Qed.

(** X17: on a store where no collection holds more than the limit can
    return (limiting a fetch to 5 changes no stream), [--no-limit] changes
    nothing but the announcement of each fetch and the fetch request itself:
    the run without the flag is the run with it, with every fetch line and
    fetch request rewritten to carry the limit of 5. *)
Theorem no_limit_changes_only_the_fetch col_ref current_depth max_depth :
  dump_collection py_str db col_ref current_depth max_depth false
  = (Ret tt,
     map as_limited
       (snd (dump_collection py_str db col_ref current_depth max_depth true))).
Proof.
  apply (dump_collection_induction py_str db
           (fun c d m =>
              m = (Ret tt,
                   map as_limited (snd (dump_collection py_str db c d max_depth true))))
           max_depth false).
  intros f c d Hf. destruct (Z_le_gt_dec d max_depth) as [Hle | Hgt].
  - specialize (Hf Hle).
    rewrite dump_collection_body_run, dump_collection_run by exact Hle. cbn zeta.
    rewrite same_stream.
    rewrite (limited_loop f d max_depth (stream_of db (query_for c true)) Hf 0).
    cbn zeta. cbn [fst snd].
    pose proof (finishes_for_stream (stream_of db (query_for c true)) 0 _
                  (finishes_visit_document py_str db d max_depth true)) as Hfin.
    unfold finishes in Hfin.
    destruct (fst (for_stream (stream_of db (query_for c true)) 0 _)) as [k | e |];
      try contradiction; rewrite !map_app; f_equal; f_equal; f_equal.
    + simpl. destruct (k =? 0); reflexivity.
  - unfold dump_collection_body.
    replace (d >? max_depth) with true by lia.
    rewrite dump_collection_limit_reached by exact Hgt. reflexivity.
Qed.

End NoLimit.

Lemma no_limit_changes_only_the_fetch_witness :
  dump_collection sample_str (wide_db 3) ["c"] 0 10 false
  = (Ret tt,
     map as_limited (snd (dump_collection sample_str (wide_db 3) ["c"] 0 10 true))).
Proof.
  apply (no_limit_changes_only_the_fetch sample_str (wide_db 3)).
  intros c. reflexivity.
Defined.
